(** * OnCall plugin front-end: authorization table and page-level bookkeeping

    A shallow embedding of
    - [grafana-plugin/src/utils/authorization/index.ts]
      (role threshold, permission lookup, the [UserActions] table),
    - the Incidents page (pagination window, bulk actions, polling), and
    - the Integrations page (query parsing, filters, the poll counters),
    followed by the properties proved about them.

    JavaScript values are modelled as follows.  The numbers the Incidents
    page reads from the URL and computes its pagination window with are
    binary64 doubles: they are Rocq's primitive floats, whose arithmetic is
    the IEEE 754 arithmetic of JavaScript.  Poll counters, delays and
    timer periods, which stay small integers, are modelled by [Z].
    [undefined] is [None] of an option type.  Plain objects used as
    dictionaries are [gmap string _]; timers handed out by the host
    ([setInterval]) are positive numbers. *)

From Stdlib Require Import ZArith String List Bool Lia.
From Stdlib Require Import PrimFloat.
From Stdlib Require FloatOps SpecFloat.
From stdpp Require Import gmap strings list fin_maps pretty.

Local Open Scope string_scope.
Local Open Scope nat_scope.

(* ===================================================================== *)
(** ** JavaScript helpers shared by the three source files *)
(* ===================================================================== *)

Module JS.

(** Truthiness of an optional boolean ([undefined], [false], [true]). *)
Definition truthy_bool (o : option bool) : bool :=
  match o with
  | Some true => true
  | _ => false
  end.

(** Truthiness of a string: only the empty string is falsy. *)
Definition truthy_string (s : string) : bool :=
  match s with
  | EmptyString => false
  | String _ _ => true
  end.

(** Truthiness of an optional string ([undefined] or a string). *)
Definition truthy_ostring (o : option string) : bool :=
  match o with
  | Some s => truthy_string s
  | None => false
  end.

(** Truthiness of a number: [0] is falsy (and so is [NaN], which the
    integer model does not contain). *)
Definition truthy_number (n : Z) : bool := negb (n =? 0)%Z.

(** Property-key coercion of an optional string: [obj[undefined]] reads
    the key ["undefined"]. *)
Definition prop_key (o : option string) : string :=
  match o with
  | Some s => s
  | None => "undefined"
  end.

(** The host's interval timers.  [active] holds the callbacks (as data:
    what the closure captured) of the intervals that have been set and
    not cleared; [next] is the id the next [setInterval] returns. *)
Record timers (C : Type) : Type := MkTimers {
  active : gmap positive C;
  next : positive
}.
Arguments MkTimers {C} _ _.
Arguments active {C} _.
Arguments next {C} _.

Definition no_timers {C : Type} : timers C := MkTimers ∅ 1%positive.

(** [setInterval(cb, ms)]: registers the callback under a fresh id and
    returns the id. *)
Definition setInterval {C : Type} (cb : C) (t : timers C) : timers C * positive :=
  (MkTimers (<[next t := cb]> (active t)) (Pos.succ (next t)), next t).

(** [clearInterval(id)]: [clearInterval(undefined)] does nothing. *)
Definition clearInterval {C : Type} (id : option positive) (t : timers C) : timers C :=
  match id with
  | Some i => MkTimers (delete i (active t)) (next t)
  | None => t
  end.

(** Every active id was handed out before [next]. *)
Definition timers_wf {C : Type} (t : timers C) : Prop :=
  ∀ i, is_Some (active t !! i) → (i < next t)%positive.

End JS.

(* ===================================================================== *)
(** ** utils/authorization/index.ts *)
(* ===================================================================== *)

Module Authorization.

Definition ONCALL_PERMISSION_PREFIX : string := "grafana-oncall-app".

(** [OrgRole] of the host ([@grafana/data]); [roleMapping] is a total
    [Record<OrgRole, number>] with exactly these three keys. *)
Inductive OrgRole : Type := Admin | Editor | Viewer.

Record UserAction : Type := MkUserAction {
  permission : string;
  fallbackMinimumRoleRequired : OrgRole
}.

Inductive Resource : Type :=
| ALERT_GROUPS | INTEGRATIONS | ESCALATION_CHAINS | SCHEDULES | CHATOPS
| OUTGOING_WEBHOOKS | MAINTENANCE | API_KEYS | NOTIFICATIONS
| NOTIFICATION_SETTINGS | USER_SETTINGS | OTHER_SETTINGS
| TEAMS | PLUGINS.

Definition Resource_value (r : Resource) : string :=
  match r with
  | ALERT_GROUPS => "alert-groups"
  | INTEGRATIONS => "integrations"
  | ESCALATION_CHAINS => "escalation-chains"
  | SCHEDULES => "schedules"
  | CHATOPS => "chatops"
  | OUTGOING_WEBHOOKS => "outgoing-webhooks"
  | MAINTENANCE => "maintenance"
  | API_KEYS => "api-keys"
  | NOTIFICATIONS => "notifications"
  | NOTIFICATION_SETTINGS => "notification-settings"
  | USER_SETTINGS => "user-settings"
  | OTHER_SETTINGS => "other-settings"
  | TEAMS => "teams"
  | PLUGINS => "plugins"
  end.

Inductive Action : Type :=
| READ | WRITE | ADMIN | TEST | EXPORT | UPDATE_SETTINGS | INSTALL.

Definition Action_value (a : Action) : string :=
  match a with
  | READ => "read"
  | WRITE => "write"
  | ADMIN => "admin"
  | TEST => "test"
  | EXPORT => "export"
  | UPDATE_SETTINGS => "update-settings"
  | INSTALL => "install"
  end.

(** The keys of the [UserActions] table (the type [Actions]). *)
Inductive Actions : Type :=
| AlertGroupsRead | AlertGroupsWrite
| IntegrationsRead | IntegrationsWrite | IntegrationsTest
| EscalationChainsRead | EscalationChainsWrite
| SchedulesRead | SchedulesWrite | SchedulesExport
| ChatOpsRead | ChatOpsWrite | ChatOpsUpdateSettings
| OutgoingWebhooksRead | OutgoingWebhooksWrite
| MaintenanceRead | MaintenanceWrite
| APIKeysRead | APIKeysWrite
| NotificationsRead
| NotificationSettingsRead | NotificationSettingsWrite
| UserSettingsRead | UserSettingsWrite | UserSettingsAdmin
| OtherSettingsRead | OtherSettingsWrite
| TeamsWrite | PluginsInstall.

Definition roleMapping (r : OrgRole) : Z :=
  match r with
  | Admin => 0
  | Editor => 1
  | Viewer => 2
  end.

(** What the module reads from the host: [contextSrv.user] and
    [config.featureToggles].  The host declares [orgRole] as
    [OrgRole | ''] ([None] is the empty role) and [permissions] as an
    optional [Record<string, boolean>]. *)
Record ContextUser : Type := MkContextUser {
  orgRole : option OrgRole;
  permissions : option (gmap string bool)
}.

Record Host : Type := MkHost {
  user : ContextUser;
  accessControlOnCall : option bool
}.

(** [roleMapping[contextSrv.user.orgRole]]: [undefined] for the empty
    role. *)
Definition roleMapping_lookup (r : option OrgRole) : option Z :=
  roleMapping <$> r.

(** [a <= b] where [a] may be [undefined]: the comparison with
    [undefined] (converted to [NaN]) is [false]. *)
Definition js_le (a : option Z) (b : Z) : bool :=
  match a with
  | Some x => (x <=? b)%Z
  | None => false
  end.

Definition userHasMinimumRequiredRole (h : Host) (minimumRoleRequired : OrgRole) : bool :=
  js_le (roleMapping_lookup (orgRole (user h))) (roleMapping minimumRoleRequired).

(** [!!contextSrv.user.permissions?.[permission]] *)
Definition permission_truthy (u : ContextUser) (p : string) : bool :=
  match permissions u with
  | Some m => JS.truthy_bool (m !! p)
  | None => false
  end.

Definition isUserActionAllowed (h : Host) (ua : UserAction) : bool :=
  if JS.truthy_bool (accessControlOnCall h)
  then permission_truthy (user h) (permission ua)
  else userHasMinimumRequiredRole h (fallbackMinimumRoleRequired ua).

Definition generatePermissionString (resource : Resource) (action : Action)
    (includePrefix : bool) : string :=
  (if includePrefix then ONCALL_PERMISSION_PREFIX +:+ "." else "")
    +:+ Resource_value resource +:+ ":" +:+ Action_value action.

(** [includePrefix = true] is a default parameter: [None] is the call
    that omits it. *)
Definition constructAction (resource : Resource) (action : Action)
    (fallbackMinimumRoleRequired : OrgRole) (includePrefix : option bool) : UserAction :=
  MkUserAction
    (generatePermissionString resource action (default true includePrefix))
    fallbackMinimumRoleRequired.

(** The arguments each table entry passes to [constructAction]. *)
Definition UserActions_args (a : Actions) : Resource * Action * OrgRole * option bool :=
  match a with
  | AlertGroupsRead => (ALERT_GROUPS, READ, Viewer, None)
  | AlertGroupsWrite => (ALERT_GROUPS, WRITE, Editor, None)
  | IntegrationsRead => (INTEGRATIONS, READ, Viewer, None)
  | IntegrationsWrite => (INTEGRATIONS, WRITE, Admin, None)
  | IntegrationsTest => (INTEGRATIONS, TEST, Editor, None)
  | EscalationChainsRead => (ESCALATION_CHAINS, READ, Viewer, None)
  | EscalationChainsWrite => (ESCALATION_CHAINS, WRITE, Admin, None)
  | SchedulesRead => (SCHEDULES, READ, Viewer, None)
  | SchedulesWrite => (SCHEDULES, WRITE, Admin, None)
  | SchedulesExport => (SCHEDULES, WRITE, Editor, None)
  | ChatOpsRead => (CHATOPS, READ, Viewer, None)
  | ChatOpsWrite => (CHATOPS, WRITE, Editor, None)
  | ChatOpsUpdateSettings => (CHATOPS, UPDATE_SETTINGS, Admin, None)
  | OutgoingWebhooksRead => (OUTGOING_WEBHOOKS, READ, Viewer, None)
  | OutgoingWebhooksWrite => (OUTGOING_WEBHOOKS, WRITE, Admin, None)
  | MaintenanceRead => (MAINTENANCE, READ, Viewer, None)
  | MaintenanceWrite => (MAINTENANCE, WRITE, Editor, None)
  | APIKeysRead => (API_KEYS, READ, Viewer, None)
  | APIKeysWrite => (API_KEYS, WRITE, Editor, None)
  | NotificationsRead => (NOTIFICATIONS, READ, Editor, None)
  | NotificationSettingsRead => (NOTIFICATION_SETTINGS, READ, Viewer, None)
  | NotificationSettingsWrite => (NOTIFICATION_SETTINGS, WRITE, Editor, None)
  | UserSettingsRead => (USER_SETTINGS, READ, Viewer, None)
  | UserSettingsWrite => (USER_SETTINGS, WRITE, Editor, None)
  | UserSettingsAdmin => (USER_SETTINGS, ADMIN, Admin, None)
  | OtherSettingsRead => (OTHER_SETTINGS, READ, Viewer, None)
  | OtherSettingsWrite => (OTHER_SETTINGS, WRITE, Admin, None)
  | TeamsWrite => (TEAMS, WRITE, Admin, Some false)
  | PluginsInstall => (PLUGINS, INSTALL, Admin, Some false)
  end.

Definition entry_resource (a : Actions) : Resource := (UserActions_args a).1.1.1.
Definition entry_action (a : Actions) : Action := (UserActions_args a).1.1.2.

Definition UserActions (a : Actions) : UserAction :=
  let '(resource, action, role, includePrefix) := UserActions_args a in
  constructAction resource action role includePrefix.

(** The ordering of the doc comment above [userHasMinimumRequiredRole]:
    an Admin can do what an Editor can, an Editor what a Viewer can; the
    empty role is below all of them. *)
Definition privilege (r : option OrgRole) : nat :=
  match r with
  | Some Admin => 3
  | Some Editor => 2
  | Some Viewer => 1
  | None => 0
  end.

Definition with_role (h : Host) (r : option OrgRole) : Host :=
  MkHost (MkContextUser r (permissions (user h))) (accessControlOnCall h).

End Authorization.

(* ===================================================================== *)
(** ** The Incidents page *)
(* ===================================================================== *)

Module Incidents.

Definition ITEMS_PER_PAGE : float := 25.
Definition POLLING_NUM_SECONDS : Z := 15.

(** [interface Pagination]; the field [end] is spelled [end_].  Both
    bounds are JavaScript numbers. *)
Record Pagination : Type := MkPagination {
  start : float;
  end_ : float
}.

(** The exact value of a finite double, counted in units of [2^-1074]
    (every finite double is a whole number of them); [None] for [NaN] and
    the infinities. *)
Definition number_value (x : float) : option Z :=
  match FloatOps.Prim2SF x with
  | SpecFloat.S754_zero _ => Some 0%Z
  | SpecFloat.S754_finite s m e =>
      Some ((if s then -1 else 1) * Z.pos m * 2 ^ (e + 1074))%Z
  | _ => None
  end.

(** The value of the integer [n] in these units. *)
Definition whole (n : Z) : Z := (n * 2 ^ 1074)%Z.



(** A value of [props.query]: absent, a number, or a string. *)
Inductive QueryValue : Type :=
| QUndefined
| QNumber (n : float)
| QString (s : string).

(** The host's conversion of a string to a number (a double, possibly
    [NaN]). *)
Class StringCoercion : Type := StringToNumber : string → float.

(** [Number(v)]; [Number(undefined)] is [NaN]. *)
Definition Number `{StringCoercion} (v : QueryValue) : float :=
  match v with
  | QUndefined => nan
  | QNumber n => n
  | QString s => StringToNumber s
  end.

(** [isNaN(v)] converts with [Number] and tests for [NaN]. *)
Definition isNaN `{StringCoercion} (v : QueryValue) : bool := is_nan (Number v).

(** [!isNaN(v) ? Number(v) : dflt] *)
Definition number_or `{StringCoercion} (v : QueryValue) (dflt : float) : float :=
  if negb (isNaN v) then Number v else dflt.

Inductive Direction : Type := prev | next.

(** [AlertAction] of [models/alertgroup/alertgroup.types], as used by
    the row buttons. *)
Inductive AlertAction : Type :=
| Resolve | unAcknowledge | unResolve | Acknowledge | Silence | unSilence.

(** The first argument of [getBulkActionClickHandler]: [string | number]. *)
Inductive BulkActionName : Type :=
| ActionString (s : string)
| ActionNumber (n : Z).

(** The second argument of [getBulkActionClickHandler] ([event?: any]):
    omitted, a number (the silence dropdown), or a click event. *)
Inductive ClickArg : Type :=
| ArgUndefined
| ArgNumber (n : Z)
| ArgEvent.

Section Page.

(** [IncidentsFiltersType] is owned by the filters container. *)
Context {IncidentsFiltersType : Type}.

(** The fields of [store.alertGroupStore] the page reads or assigns. *)
Record AlertGroupStore : Type := MkStore {
  incidentsCursor : option string;
  incidentsItemsPerPage : float;
  liveUpdatesPaused : bool;
  incidentFilters : IncidentsFiltersType
}.

(** The methods of [store.alertGroupStore] the page calls. *)
Inductive StoreCall : Type :=
| updateBulkActions
| updateSilenceOptions
| updateIncidentFilters (filters : option IncidentsFiltersType) (isOnMount : bool)
| setIncidentsCursor (cursor : string)
| setIncidentsItemsPerPage (value : float)
| doIncidentAction (incidentId : string) (action : AlertAction) (isUndo : bool)
    (delay : option Z)
| bulkAction (action : BulkActionName) (alert_group_pks : list string) (delay : Z)
| updateIncidents.

(** What a store method does to those fields is the store's business:
    the page is verified for every such behaviour. *)
Class AlertGroupStoreMethods : Type :=
  method_effect : StoreCall → AlertGroupStore → AlertGroupStore.

(** [LocationHelper.update({ page: 'incidents', ...incidentFilters }, 'partial')] *)
Record LocationUpdate : Type := MkLocationUpdate {
  loc_page : string;
  loc_filters : IncidentsFiltersType;
  loc_mode : string
}.

(** What the closure passed to [setInterval] captured, and its period
    in milliseconds. *)
Record PollCallback : Type := MkPoll {
  poll_filters : option IncidentsFiltersType;
  poll_isOnMount : bool;
  poll_ms : Z
}.

Record IncidentsPageState : Type := MkState {
  selectedIncidentIds : list string;
  affectedRows : gmap string bool;
  filters : option IncidentsFiltersType;
  pagination : Pagination
}.

(** The component instance together with what it acts on: its React
    state, its private [pollingIntervalId], the store, the log of store
    calls and location updates, and the host's interval timers. *)
Record Page : Type := MkPage {
  state : IncidentsPageState;
  pollingIntervalId : option positive;
  store : AlertGroupStore;
  calls : list StoreCall;
  location : list LocationUpdate;
  timers : JS.timers PollCallback
}.

Definition setState (f : IncidentsPageState → IncidentsPageState) (p : Page) : Page :=
  MkPage (f (state p)) (pollingIntervalId p) (store p) (calls p) (location p) (timers p).

Definition set_selectedIncidentIds (ids : list string) (s : IncidentsPageState) :=
  MkState ids (affectedRows s) (filters s) (pagination s).
Definition set_affectedRows (a : gmap string bool) (s : IncidentsPageState) :=
  MkState (selectedIncidentIds s) a (filters s) (pagination s).
Definition set_filters (f : option IncidentsFiltersType) (s : IncidentsPageState) :=
  MkState (selectedIncidentIds s) (affectedRows s) f (pagination s).
Definition set_pagination (pg : Pagination) (s : IncidentsPageState) :=
  MkState (selectedIncidentIds s) (affectedRows s) (filters s) pg.

Definition assign_store (f : AlertGroupStore → AlertGroupStore) (p : Page) : Page :=
  MkPage (state p) (pollingIntervalId p) (f (store p)) (calls p) (location p) (timers p).

Context `{AlertGroupStoreMethods}.

(** A call of a store method: logged, and the store changes as the
    method decides. *)
Definition call (c : StoreCall) (p : Page) : Page :=
  MkPage (state p) (pollingIntervalId p) (method_effect c (store p))
    (calls p ++ [c]) (location p) (timers p).

Definition LocationHelper_update (u : LocationUpdate) (p : Page) : Page :=
  MkPage (state p) (pollingIntervalId p) (store p) (calls p)
    (location p ++ [u]) (timers p).

Record Query : Type := MkQuery {
  cursorQuery : option string;
  startQuery : QueryValue;
  perpageQuery : QueryValue
}.

Definition constructor `{StringCoercion} (query : Query) (store0 : AlertGroupStore) : Page :=
  let cursor := if JS.truthy_ostring (cursorQuery query) then cursorQuery query else None in
  let start := number_or (startQuery query) 1 in
  let itemsPerPage := number_or (perpageQuery query) ITEMS_PER_PAGE in
  let store1 :=
    MkStore cursor itemsPerPage (liveUpdatesPaused store0) (incidentFilters store0) in
  let this :=
    MkPage
      (MkState [] ∅ None (MkPagination start (start + itemsPerPage - 1)))
      None store1 [] [] JS.no_timers in
  call updateSilenceOptions (call updateBulkActions this).

Definition clearPollingInterval (p : Page) : Page :=
  MkPage (state p) None (store p) (calls p) (location p)
    (JS.clearInterval (pollingIntervalId p) (timers p)).

Definition fetchIncidentData (filters : option IncidentsFiltersType) (isOnMount : bool)
    (p : Page) : Page :=
  let p1 := call (updateIncidentFilters filters isOnMount) p in
  LocationHelper_update
    (MkLocationUpdate "incidents" (incidentFilters (store p1)) "partial") p1.

(** [setPollingInterval(filters = this.state.filters, isOnMount = false)]:
    an omitted argument is [None]. *)
Definition setPollingInterval (filters_arg : option IncidentsFiltersType)
    (isOnMount_arg : option bool) (p : Page) : Page :=
  let filters :=
    match filters_arg with
    | Some f => Some f
    | None => filters (state p)
    end in
  let isOnMount := default false isOnMount_arg in
  let '(t, id) :=
    JS.setInterval (MkPoll filters isOnMount (POLLING_NUM_SECONDS * 1000)) (timers p) in
  MkPage (state p) (Some id) (store p) (calls p) (location p) t.

Definition componentWillUnmount (p : Page) : Page := clearPollingInterval p.

Definition handleFiltersChange (filters : IncidentsFiltersType) (isOnMount : bool)
    (p : Page) : Page :=
  let p1 := setState (λ s, set_selectedIncidentIds [] (set_filters (Some filters) s)) p in
  let p2 :=
    if negb isOnMount
    then setState (set_pagination (MkPagination 1 (incidentsItemsPerPage (store p1)))) p1
    else p1 in
  let p3 := clearPollingInterval p2 in
  let p4 := setPollingInterval (Some filters) (Some isOnMount) p3 in
  fetchIncidentData (Some filters) isOnMount p4.

(** [direction === 'prev' ? -1 : 1] *)
Definition direction_sign (direction : Direction) : float :=
  match direction with
  | prev => -1
  | next => 1
  end.

(** The same sign as an integer. *)
Definition direction_step (direction : Direction) : Z :=
  match direction with
  | prev => -1
  | next => 1
  end.

(** Moving the bound [x] by the page size [n] in the given direction, as
    [onChangeCursor] computes it, is exact. *)
Definition exact_shift (x n : float) (direction : Direction) : bool :=
  match number_value x, number_value n,
        number_value (x + n * direction_sign direction) with
  | Some a, Some b, Some c => (c =? a + direction_step direction * b)%Z
  | _, _, _ => false
  end.

Definition onChangeCursor (cursor : string) (direction : Direction) (p : Page) : Page :=
  let p1 := call (setIncidentsCursor cursor) p in
  setState (λ s,
    set_pagination
      (MkPagination
         (start (pagination (state p1))
            + incidentsItemsPerPage (store p1) * direction_sign direction)
         (end_ (pagination (state p1))
            + incidentsItemsPerPage (store p1) * direction_sign direction))
      (set_selectedIncidentIds [] s)) p1.

Definition handleChangeItemsPerPage (value : float) (p : Page) : Page :=
  let p1 := call (setIncidentsItemsPerPage value) p in
  setState (λ s,
    set_pagination (MkPagination 1 (incidentsItemsPerPage (store p1)))
      (set_selectedIncidentIds [] s)) p1.

(** [renderBulkActions]: every bulk button is rendered with
    [disabled={!hasSelected}]. *)
Definition hasSelected (p : Page) : bool :=
  (0 <? length (selectedIncidentIds (state p)))%nat.
Definition bulk_buttons_disabled (p : Page) : bool := negb (hasSelected p).

Definition handleSelectedIncidentIdsChange (ids : list string) (p : Page) : Page :=
  let p1 := setState (set_selectedIncidentIds ids) p in
  if (0 <? length ids)%nat
  then clearPollingInterval p1
  else setPollingInterval None None p1.

Definition getOnActionButtonClick (incidentId : string) (action : AlertAction)
    (p : Page) : Page :=
  call (doIncidentAction incidentId action false None) p.

Definition getSilenceClickHandler (alert_pk : string) (value : Z) (p : Page) : Page :=
  call (doIncidentAction alert_pk Silence false (Some value)) p.

Definition getUnsilenceClickHandler (alert_pk : string) (p : Page) : Page :=
  call (doIncidentAction alert_pk unSilence false None) p.

(** [typeof event === 'number' ? event : 0] *)
Definition bulk_delay (event : ClickArg) : Z :=
  match event with
  | ArgNumber n => n
  | _ => 0
  end.

(** [selectedIncidentIds.reduce((acc, id) => ({...acc, [id]: true}), affectedRows)] *)
Definition mark_affected (ids : list string) (rows : gmap string bool) : gmap string bool :=
  fold_left (λ acc incidentId, <[incidentId := true]> acc) ids rows.

Definition getBulkActionClickHandler (action : BulkActionName) (event : ClickArg)
    (p : Page) : Page :=
  let selectedIncidentIds0 := selectedIncidentIds (state p) in
  let affectedRows0 := affectedRows (state p) in
  let p1 := setPollingInterval None None p in
  let p2 :=
    assign_store (λ s,
      MkStore (incidentsCursor s) (incidentsItemsPerPage s) true (incidentFilters s)) p1 in
  let delay := bulk_delay event in
  let p3 :=
    setState (λ s,
      set_affectedRows (mark_affected selectedIncidentIds0 affectedRows0)
        (set_selectedIncidentIds [] s)) p2 in
  call (bulkAction action selectedIncidentIds0 delay) p3.

Definition onIncidentsUpdateClick (p : Page) : Page :=
  call updateIncidents (setState (set_affectedRows ∅) p).

(** One firing of the interval [id]: the closure runs only while the
    interval is active. *)
Definition tick (id : positive) (p : Page) : Page :=
  match JS.active (timers p) !! id with
  | Some cb => fetchIncidentData (poll_filters cb) (poll_isOnMount cb) p
  | None => p
  end.

(** The callbacks the rendered page hands to its children, and the
    timer firings. *)
Inductive Event : Type :=
| FiltersChange (filters : IncidentsFiltersType) (isOnMount : bool)
| ChangeCursor (cursor : string) (direction : Direction)
| ChangeItemsPerPage (value : float)
| SelectedIncidentIdsChange (ids : list string)
| ActionButtonClick (incidentId : string) (action : AlertAction)
| SilenceClick (alert_pk : string) (value : Z)
| UnsilenceClick (alert_pk : string)
| BulkActionClick (action : BulkActionName) (event : ClickArg)
| IncidentsUpdateClick
| Tick (id : positive).

Definition handle (e : Event) (p : Page) : Page :=
  match e with
  | FiltersChange f m => handleFiltersChange f m p
  | ChangeCursor c d => onChangeCursor c d p
  | ChangeItemsPerPage v => handleChangeItemsPerPage v p
  | SelectedIncidentIdsChange ids => handleSelectedIncidentIdsChange ids p
  | ActionButtonClick i a => getOnActionButtonClick i a p
  | SilenceClick i v => getSilenceClickHandler i v p
  | UnsilenceClick i => getUnsilenceClickHandler i p
  | BulkActionClick a ev => getBulkActionClickHandler a ev p
  | IncidentsUpdateClick => onIncidentsUpdateClick p
  | Tick id => tick id p
  end.

(** Which events the rendered page is taken to deliver: a bulk button
    only while it is not disabled ([disabled={!hasSelected}] in
    [renderBulkActions]), a timer only while it is active, and the
    table's selection callback with an empty list only when rows were
    selected.  The last is an assumption on the table component, whose
    code is not among the sources; [reachable_any] below does without
    these restrictions. *)
Definition enabled (p : Page) (e : Event) : bool :=
  match e with
  | BulkActionClick _ _ => negb (bulk_buttons_disabled p)
  | SelectedIncidentIdsChange ids => (0 <? length ids)%nat || hasSelected p
  | Tick id => bool_decide (is_Some (JS.active (timers p) !! id))
  | _ => true
  end.

(** The states a mounted page goes through. *)
Inductive reachable `{StringCoercion} : Page → Prop :=
| reachable_constructor (query : Query) (store0 : AlertGroupStore) :
    reachable (constructor query store0)
| reachable_handle (p : Page) (e : Event) :
    reachable p → enabled p e = true → reachable (handle e p).

(** The same without the restriction on the events: every callback may
    be invoked at any time with any argument. *)
Inductive reachable_any `{StringCoercion} : Page → Prop :=
| reachable_any_constructor (query : Query) (store0 : AlertGroupStore) :
    reachable_any (constructor query store0)
| reachable_any_handle (p : Page) (e : Event) :
    reachable_any p → reachable_any (handle e p).



(** Every active interval is the one recorded in [pollingIntervalId],
    and the host never hands out an id twice. *)
Definition timers_tracked (p : Page) : Prop :=
  (∀ i, is_Some (JS.active (timers p) !! i) → pollingIntervalId p = Some i)
  ∧ JS.timers_wf (timers p).

(** The polling discipline: the active intervals are tracked, and none
    is recorded while rows are selected. *)
Definition polling_ok (p : Page) : Prop :=
  timers_tracked p ∧ (hasSelected p = true → pollingIntervalId p = None).

(** Every active interval has the period [POLLING_NUM_SECONDS * 1000]. *)
Definition polls_every_15s (p : Page) : Prop :=
  ∀ i cb, JS.active (timers p) !! i = Some cb → poll_ms cb = 15000%Z.

(** A store in which only [setIncidentsItemsPerPage] changes the page
    size. *)
Definition keeps_page_size : Prop :=
  ∀ (c : StoreCall) (s : AlertGroupStore),
    (∀ value, c ≠ setIncidentsItemsPerPage value) →
    incidentsItemsPerPage (method_effect c s) = incidentsItemsPerPage s.

Definition all_true (rows : gmap string bool) : Prop :=
  ∀ k v, rows !! k = Some v → v = true.

End Page.

Arguments AlertGroupStore : clear implicits.
Arguments StoreCall : clear implicits.
Arguments AlertGroupStoreMethods : clear implicits.
Arguments Page : clear implicits.
Arguments Event : clear implicits.

End Incidents.

(* ===================================================================== *)
(** ** The Integrations page *)
(* ===================================================================== *)

Module Integrations.

(** How a handler (or the callback of a promise) ends: it returns, or it
    throws a [TypeError] by reading a property of [undefined]; both
    carry the page as the handler left it. *)
Inductive Completion (A : Type) : Type :=
| Returned (a : A)
| Threw (a : A).
Arguments Returned {A} _.
Arguments Threw {A} _.

Definition outcome {A : Type} (c : Completion A) : A :=
  match c with
  | Returned a => a
  | Threw a => a
  end.

(** [interface Filters] of the filters component. *)
Record Filters : Type := MkFilters { searchTerm : string }.

(** The integration description returned by [getIntegration]. *)
Record Integration : Type := MkIntegration { display_name : string }.

Section Page.

(** Types owned by other modules: the remaining fields of an
    [AlertReceiveChannel], the settings tabs, the error-page data, the
    rejection value of a promise, the value of a creation option. *)
Context {ChannelData IntegrationSettingsTab ErrorData Error OptionValue : Type}.

Record AlertReceiveChannel : Type := MkChannel {
  id : string;
  channel_data : ChannelData
}.

(** [IntegrationSettingsTab.Heartbeat], [.HowToConnect] and the
    helpers of [PageErrorHandlingWrapper.helpers]. *)
Class PageHelpers : Type := MkPageHelpers {
  Heartbeat : IntegrationSettingsTab;
  HowToConnect : IntegrationSettingsTab;
  initErrorDataState : ErrorData;
  getWrongTeamResponseInfo : Error → ErrorData
}.

(** [store.alertReceiveChannelStore], with state [S].  A promise is
    modelled by its settlement: [loadItem] rejects with an error or
    resolves with an item (possibly [undefined]); [updateItems],
    [create] and [deleteAlertReceiveChannel] resolve ([true], [Some])
    or reject. *)
Class AlertReceiveChannelStore (S : Type) : Type := MkChannelStore {
  getSearchResult : S → option (list AlertReceiveChannel);
  loadItem : string → bool → S → S * (Error + option AlertReceiveChannel);
  updateItems : option string → S → S * bool;
  updateItem : option string → S → S;
  create : OptionValue → S → S * option AlertReceiveChannel;
  deleteAlertReceiveChannel : string → S → S * bool;
  getIntegration : AlertReceiveChannel → S → option Integration
}.

Record IntegrationsState : Type := MkState {
  integrationsFilters : Filters;
  showCreateIntegrationModal : bool;
  alertReceiveChannelToShowSettings : option string;
  integrationSettingsTab : option IntegrationSettingsTab;
  errorData : ErrorData
}.

(** [LocationHelper.update({ id }, 'partial')] and
    [LocationHelper.update({ tab: undefined }, 'partial')]. *)
Inductive LocationUpdate : Type :=
| UpdateId (id : option string)
| UpdateTab (tab : option IntegrationSettingsTab).

Record Query : Type := MkQuery {
  query_id : option string;
  query_tab : option IntegrationSettingsTab
}.

Context {S : Type} `{PageHelpers} `{AlertReceiveChannelStore S}.

(** The component instance with what it acts on.  The timers carry the
    period of the interval, its callback is always [checkTimerTick]. *)
Record Page : Type := MkPage {
  state : IntegrationsState;
  alertReceiveChanneltoPoll : gmap string Z;
  alertReceiveChannelTimerId : option positive;
  selectedAlertReceiveChannel : option string;
  alertReceiveChannelStore : S;
  location : list LocationUpdate;
  timers : JS.timers Z
}.

Definition initial_state : IntegrationsState :=
  MkState (MkFilters "") false None None initErrorDataState.

(** A freshly constructed component over a store. *)
Definition initial_page (selected : option string) (s : S) : Page :=
  MkPage initial_state ∅ None selected s [] JS.no_timers.

Definition setState (f : IntegrationsState → IntegrationsState) (p : Page) : Page :=
  MkPage (f (state p)) (alertReceiveChanneltoPoll p) (alertReceiveChannelTimerId p)
    (selectedAlertReceiveChannel p) (alertReceiveChannelStore p) (location p) (timers p).

Definition set_integrationsFilters (f : Filters) (s : IntegrationsState) :=
  MkState f (showCreateIntegrationModal s) (alertReceiveChannelToShowSettings s)
    (integrationSettingsTab s) (errorData s).
Definition set_showCreateIntegrationModal (b : bool) (s : IntegrationsState) :=
  MkState (integrationsFilters s) b (alertReceiveChannelToShowSettings s)
    (integrationSettingsTab s) (errorData s).
Definition set_alertReceiveChannelToShowSettings (c : option string) (s : IntegrationsState) :=
  MkState (integrationsFilters s) (showCreateIntegrationModal s) c
    (integrationSettingsTab s) (errorData s).
Definition set_integrationSettingsTab (t : option IntegrationSettingsTab)
    (s : IntegrationsState) :=
  MkState (integrationsFilters s) (showCreateIntegrationModal s)
    (alertReceiveChannelToShowSettings s) t (errorData s).
Definition set_errorData (e : ErrorData) (s : IntegrationsState) :=
  MkState (integrationsFilters s) (showCreateIntegrationModal s)
    (alertReceiveChannelToShowSettings s) (integrationSettingsTab s) e.

Definition set_store (s : S) (p : Page) : Page :=
  MkPage (state p) (alertReceiveChanneltoPoll p) (alertReceiveChannelTimerId p)
    (selectedAlertReceiveChannel p) s (location p) (timers p).

Definition set_selected (sel : option string) (p : Page) : Page :=
  MkPage (state p) (alertReceiveChanneltoPoll p) (alertReceiveChannelTimerId p)
    sel (alertReceiveChannelStore p) (location p) (timers p).

Definition set_toPoll (m : gmap string Z) (p : Page) : Page :=
  MkPage (state p) m (alertReceiveChannelTimerId p)
    (selectedAlertReceiveChannel p) (alertReceiveChannelStore p) (location p) (timers p).

Definition LocationHelper_update (u : LocationUpdate) (p : Page) : Page :=
  MkPage (state p) (alertReceiveChanneltoPoll p) (alertReceiveChannelTimerId p)
    (selectedAlertReceiveChannel p) (alertReceiveChannelStore p) (location p ++ [u])
    (timers p).

Definition setSelectedAlertReceiveChannel (alertReceiveChannelId : option string)
    (p : Page) : Page :=
  LocationHelper_update (UpdateId alertReceiveChannelId)
    (set_selected alertReceiveChannelId p).

(** [searchResult[0]?.id] on a defined array. *)
Definition first_id (searchResult : list AlertReceiveChannel) : option string :=
  id <$> head searchResult.

(** The tail of [parseQueryParams], after the [if (query.id)] block. *)
Definition parseQueryParams_select (searchResult : option (list AlertReceiveChannel))
    (selected : option string) (p : Page) : Completion Page :=
  if negb (JS.truthy_ostring selected)
  then
    match searchResult with
    | Some l => Returned (setSelectedAlertReceiveChannel (first_id l) p)
    | None => Threw p
    end
  else Returned (setSelectedAlertReceiveChannel selected p).

Definition parseQueryParams (query : Query) (p : Page) : Completion Page :=
  let p1 := setState (set_errorData initErrorDataState) p in
  let searchResult := getSearchResult (alertReceiveChannelStore p1) in
  let selected := selectedAlertReceiveChannel p1 in
  if JS.truthy_ostring (query_id query)
  then
    let '(s', settled) :=
      loadItem (default "" (query_id query)) true (alertReceiveChannelStore p1) in
    let p2 := set_store s' p1 in
    match settled with
    | inl error =>
        (* the catch handler sets the state and yields undefined *)
        Returned (setState (set_errorData (getWrongTeamResponseInfo error)) p2)
    | inr None => Returned p2
    | inr (Some alertReceiveChannel) =>
        let selected' :=
          if JS.truthy_string (id alertReceiveChannel)
          then Some (id alertReceiveChannel)
          else selected in
        let p3 :=
          match query_tab query with
          | Some tab =>
              setState (set_alertReceiveChannelToShowSettings (query_id query))
                (setState (set_integrationSettingsTab (Some tab)) p2)
          | None => p2
          end in
        parseQueryParams_select searchResult selected' p3
    end
  else parseQueryParams_select searchResult selected p1.

(** [update = () => store.alertReceiveChannelStore.updateItems()] *)
Definition update (p : Page) : Page * bool :=
  let '(s', ok) := updateItems None (alertReceiveChannelStore p) in
  (set_store s' p, ok).

(** [this.update().then(this.parseQueryParams)] *)
Definition componentDidMount (query : Query) (p : Page) : Completion Page :=
  let '(p1, ok) := update p in
  if ok then parseQueryParams query p1 else Returned p1.

Definition componentWillUnmount (p : Page) : Page :=
  MkPage (state p) (alertReceiveChanneltoPoll p) (alertReceiveChannelTimerId p)
    (selectedAlertReceiveChannel p) (alertReceiveChannelStore p) (location p)
    (JS.clearInterval (alertReceiveChannelTimerId p) (timers p)).

(** The props the page passes to [PageErrorHandlingWrapper]. *)
Record WrapperProps : Type := MkWrapperProps {
  wrapper_errorData : ErrorData;
  objectName : string;
  pageName : string
}.

Definition render_wrapper (p : Page) : WrapperProps :=
  MkWrapperProps (errorData (state p)) "integration" "integrations".

Definition checkTimerTick (p : Page) : Page :=
  let key := JS.prop_key (selectedAlertReceiveChannel p) in
  match alertReceiveChanneltoPoll p !! key with
  | Some counter =>
      if (counter >? 0)%Z
      then
        let p1 :=
          set_store
            (updateItem (selectedAlertReceiveChannel p) (alertReceiveChannelStore p)) p in
        set_toPoll (<[key := (counter - 1)%Z]> (alertReceiveChanneltoPoll p1)) p1
      else set_toPoll (delete key (alertReceiveChanneltoPoll p)) p
  | None => p
  end.

(** The callback of [create(...).then] from the point where
    [await updateItems()] has resolved: everything after the [await]. *)
Definition onCreated_resume (alertReceiveChannel : AlertReceiveChannel) (p1 : Page) : Page :=
  let p2 := setSelectedAlertReceiveChannel (Some (id alertReceiveChannel)) p1 in
  let p3 :=
    setState (λ s,
      set_integrationSettingsTab (Some HowToConnect)
        (set_alertReceiveChannelToShowSettings (Some (id alertReceiveChannel)) s)) p2 in
  let integration := getIntegration alertReceiveChannel (alertReceiveChannelStore p3) in
  if bool_decide (display_name <$> integration = Some "Grafana Alerting")
  then
    let p4 :=
      set_toPoll (<[id alertReceiveChannel := 200%Z]> (alertReceiveChanneltoPoll p3)) p3 in
    match alertReceiveChannelTimerId p4 with
    | Some _ => p4
    | None =>
        let '(t, timerId) := JS.setInterval 3000%Z (timers p4) in
        MkPage (state p4) (alertReceiveChanneltoPoll p4) (Some timerId)
          (selectedAlertReceiveChannel p4) (alertReceiveChannelStore p4) (location p4) t
    end
  else p3.

(** The call of [updateItems()] the callback starts with; the rest of
    the callback waits for it. *)
Definition onCreated_refresh (p : Page) : Page :=
  set_store (fst (updateItems None (alertReceiveChannelStore p))) p.

(** The callback of [create(...).then], run when the creation resolved
    with [alertReceiveChannel], with nothing happening while it waits
    for [updateItems()].  If [updateItems()] rejects, the rest is
    skipped. *)
Definition onCreated (alertReceiveChannel : AlertReceiveChannel) (p : Page) : Page :=
  let '(s1, ok) := updateItems None (alertReceiveChannelStore p) in
  let p1 := set_store s1 p in
  if ok then onCreated_resume alertReceiveChannel p1 else p1.

(** The call of [create] alone; its promise is pending afterwards. *)
Definition create_issued (option_value : OptionValue) (p : Page) : Page :=
  set_store (fst (create option_value (alertReceiveChannelStore p))) p.

(** [handleCreateNewAlertReceiveChannel] with the creation resolving and
    its callback running before anything else happens to the page. *)
Definition handleCreateNewAlertReceiveChannel (option_value : OptionValue)
    (p : Page) : Page :=
  let '(s1, created) := create option_value (alertReceiveChannelStore p) in
  let p1 := set_store s1 p in
  match created with
  | Some alertReceiveChannel => onCreated alertReceiveChannel p1
  | None => p1
  end.

(** [if (alertReceiveChanneltoPoll[id])]: a missing entry and the
    counter [0] are falsy. *)
Definition toPoll_truthy (m : gmap string Z) (k : string) : bool :=
  match m !! k with
  | Some counter => JS.truthy_number counter
  | None => false
  end.

Definition handleDeleteAlertReceiveChannel (alertReceiveChannelId : string)
    (p : Page) : Page :=
  let p0 :=
    if toPoll_truthy (alertReceiveChanneltoPoll p) alertReceiveChannelId
    then set_toPoll (delete alertReceiveChannelId (alertReceiveChanneltoPoll p)) p
    else p in
  let '(s1, deleted) :=
    deleteAlertReceiveChannel alertReceiveChannelId (alertReceiveChannelStore p0) in
  let p1 := set_store s1 p0 in
  if deleted
  then
    let '(s2, ok) := updateItems None (alertReceiveChannelStore p1) in
    let p2 := set_store s2 p1 in
    if ok && bool_decide (Some alertReceiveChannelId = selectedAlertReceiveChannel p2)
    then
      let searchResult := getSearchResult (alertReceiveChannelStore p2) in
      setSelectedAlertReceiveChannel (searchResult ≫= first_id) p2
    else p2
  else p1.

(** [searchResult.find(c => c.id === store.selectedAlertReceiveChannel)] *)
Definition find_selected (searchResult : list AlertReceiveChannel)
    (selected : option string) : option AlertReceiveChannel :=
  List.find (λ alertReceiveChannel, bool_decide (Some (id alertReceiveChannel) = selected))
    searchResult.

Definition applyFilters (p : Page) : Completion Page :=
  let '(s1, ok) :=
    updateItems (Some (searchTerm (integrationsFilters (state p))))
      (alertReceiveChannelStore p) in
  let p1 := set_store s1 p in
  if ok
  then
    match getSearchResult (alertReceiveChannelStore p1) with
    | Some searchResult =>
        match find_selected searchResult (selectedAlertReceiveChannel p1) with
        | Some _ => Returned p1
        | None =>
            Returned
              (set_selected
                 (if (0 <? length searchResult)%nat
                  then id <$> (searchResult !! 0%nat)
                  else None) p1)
        end
    | None => Threw p1
    end
  else Returned p1.

(** [setState({ integrationsFilters }, this.debouncedUpdateIntegrations)]:
    the state changes now, [applyFilters] runs when the debounce fires. *)
Definition handleIntegrationsFiltersChange (integrationsFilters : Filters)
    (p : Page) : Page :=
  setState (set_integrationsFilters integrationsFilters) p.

Definition handleAlertReceiveChannelSelect (id : string) (p : Page) : Page :=
  setSelectedAlertReceiveChannel (Some id) p.

(** What happens to a mounted page: its lifecycle hooks, the callbacks
    it hands to its children, settled promises, the debounce and the
    timer.  [CreateChannel] is a creation whose promises settle at
    once.  The last three events are the steps of a creation with other
    events in between: the call of [create], its promise resolving (the
    callback calls [updateItems()] and waits), and [updateItems()]
    resolving (the rest of the callback runs, with the channel the
    creation resolved with). *)
Inductive Event : Type :=
| DidMount (query : Query)
| QueryChanged (query : Query)
| ShowCreateModal
| HideCreateModal
| ShowHeartbeatModal (item_id : string)
| ShowSettings (tab : option IntegrationSettingsTab)
| HideSettings
| SettingsUpdated
| CreateChannel (option_value : OptionValue)
| DeleteChannel (alertReceiveChannelId : string)
| FiltersChange (filters : Filters)
| DebounceFired
| SelectChannel (id : string)
| TimerTick (timerId : positive)
| CreateIssued (option_value : OptionValue)
| CreationResolved
| RefreshResolved (alertReceiveChannel : AlertReceiveChannel).

Definition handle (e : Event) (p : Page) : Page :=
  match e with
  | DidMount q => outcome (componentDidMount q p)
  | QueryChanged q => outcome (parseQueryParams q p)
  | ShowCreateModal => setState (set_showCreateIntegrationModal true) p
  | HideCreateModal => setState (set_showCreateIntegrationModal false) p
  | ShowHeartbeatModal item_id =>
      setState (λ s,
        set_integrationSettingsTab (Some Heartbeat)
          (set_alertReceiveChannelToShowSettings (Some item_id) s)) p
  | ShowSettings tab =>
      setState (λ s,
        set_integrationSettingsTab tab
          (set_alertReceiveChannelToShowSettings (selectedAlertReceiveChannel p) s)) p
  | HideSettings =>
      LocationHelper_update (UpdateTab None)
        (setState (λ s,
           set_integrationSettingsTab None
             (set_alertReceiveChannelToShowSettings None s)) p)
  | SettingsUpdated =>
      set_store
        (updateItem (alertReceiveChannelToShowSettings (state p))
           (alertReceiveChannelStore p)) p
  | CreateChannel v => handleCreateNewAlertReceiveChannel v p
  | DeleteChannel i => handleDeleteAlertReceiveChannel i p
  | FiltersChange f => handleIntegrationsFiltersChange f p
  | DebounceFired => outcome (applyFilters p)
  | SelectChannel i => handleAlertReceiveChannelSelect i p
  | TimerTick timerId =>
      match JS.active (timers p) !! timerId with
      | Some _ => checkTimerTick p
      | None => p
      end
  | CreateIssued v => create_issued v p
  | CreationResolved => onCreated_refresh p
  | RefreshResolved c => onCreated_resume c p
  end.

Inductive reachable : Page → Prop :=
| reachable_initial (selected : option string) (s : S) :
    reachable (initial_page selected s)
| reachable_handle (p : Page) (e : Event) :
    reachable p → reachable (handle e p).

(** The timer discipline of the page: every active interval is the one
    recorded in [alertReceiveChannelTimerId]. *)
Definition timer_ok (p : Page) : Prop :=
  (∀ i, is_Some (JS.active (timers p) !! i) → alertReceiveChannelTimerId p = Some i)
  ∧ JS.timers_wf (timers p).

Definition counters_ok (m : gmap string Z) : Prop :=
  ∀ k counter, m !! k = Some counter → (0 ≤ counter ≤ 200)%Z.

End Page.

Arguments AlertReceiveChannel : clear implicits.
Arguments PageHelpers : clear implicits.
Arguments AlertReceiveChannelStore : clear implicits.
Arguments Page : clear implicits.
Arguments Query : clear implicits.
Arguments Event : clear implicits.

End Integrations.

(* ===================================================================== *)
(** ** Concrete collaborators, used to exercise the pages *)
(* ===================================================================== *)

Module Samples.

(** The integer a string of decimal digits denotes; the empty string
    denotes [0]; [None] if another character occurs. *)
Fixpoint digits_to_number (acc : Z) (s : string) : option Z :=
  match s with
  | EmptyString => Some acc
  | String c rest =>
      let n := Ascii.nat_of_ascii c in
      if ((48 <=? n) && (n <=? 57))%nat
      then digits_to_number (10 * acc + Z.of_nat (n - 48)) rest
      else None
  end.

(** The double nearest to an integer (ties to even). *)
Definition Z_to_float (z : Z) : float :=
  FloatOps.SF2Prim (SpecFloat.binary_normalize FloatOps.prec FloatOps.emax z 0 false).

(** [Number] on the empty string and on strings of decimal digits: the
    nearest double of the integer they denote.  Other strings are
    answered [NaN]; the samples below use it on digit strings, on the
    empty string and on text that is no numeric literal only. *)
#[export] Instance decimal_coercion : Incidents.StringCoercion :=
  λ s, match digits_to_number 0 s with
       | Some z => Z_to_float z
       | None => nan
       end.

(** A store whose setters assign the field they are named after
    (changing the page size also resets the cursor) and whose other
    methods leave the fields alone. *)
#[export] Instance plain_store : Incidents.AlertGroupStoreMethods string :=
  λ c s,
    match c with
    | Incidents.setIncidentsCursor cursor =>
        Incidents.MkStore (Some cursor) (Incidents.incidentsItemsPerPage s)
          (Incidents.liveUpdatesPaused s) (Incidents.incidentFilters s)
    | Incidents.setIncidentsItemsPerPage value =>
        Incidents.MkStore None value
          (Incidents.liveUpdatesPaused s) (Incidents.incidentFilters s)
    | _ => s
    end.

Definition empty_store : Incidents.AlertGroupStore string :=
  Incidents.MkStore None 0 false "".

Definition no_query : Incidents.Query :=
  Incidents.MkQuery None Incidents.QUndefined Incidents.QUndefined.

(** A freshly constructed Incidents page, with no query parameters. *)
Definition fresh_incidents : Incidents.Page string :=
  Incidents.constructor no_query empty_store.

(** The Incidents page after its filters mounted. *)
Definition mounted_incidents : Incidents.Page string :=
  Incidents.handleFiltersChange "status=new" true fresh_incidents.

Definition user_admin : Authorization.Host :=
  Authorization.MkHost
    (Authorization.MkContextUser (Some Authorization.Admin)
       (Some {[ "grafana-oncall-app.schedules:read" := true ]}))
    (Some true).

#[export] Instance helpers : Integrations.PageHelpers string (option string) string :=
  Integrations.MkPageHelpers "heartbeat" "how-to-connect" None (λ error, Some error).

Definition channel (i : string) : Integrations.AlertReceiveChannel unit :=
  Integrations.MkChannel i tt.

(** A store that is the list of its channels; loading an unknown id
    rejects, every created channel is a Grafana Alerting integration. *)
#[export] Instance list_store :
    Integrations.AlertReceiveChannelStore unit string string
      (list (Integrations.AlertReceiveChannel unit)) :=
  Integrations.MkChannelStore (list (Integrations.AlertReceiveChannel unit))
    (λ l, Some l)
    (λ i _ l,
       (l, match List.find (λ c, bool_decide (Integrations.id c = i)) l with
           | Some c => inr (Some c)
           | None => inl "wrong team"
           end))
    (λ _ l, (l, true))
    (λ _ l, l)
    (λ v l, ((l ++ [channel v])%list, Some (channel v)))
    (λ i l, (List.filter (λ c, negb (bool_decide (Integrations.id c = i))) l, true))
    (λ _ _, Some (Integrations.MkIntegration "Grafana Alerting")).

Definition fresh_integrations :
    Integrations.Page string (option string) (list (Integrations.AlertReceiveChannel unit)) :=
  Integrations.initial_page (Some "A") [channel "A"; channel "B"].

(** A page whose selection ["C"] is not among the channels of the store. *)
Definition stale_selection :
    Integrations.Page string (option string) (list (Integrations.AlertReceiveChannel unit)) :=
  Integrations.initial_page (Some "C") [channel "A"; channel "B"].

End Samples.

(** Case analysis on the settled promises and lookups a handler branches
    on. *)
Ltac branch :=
  repeat (simpl;
          match goal with
          | |- context [let '(_, _) := ?x in _] => destruct x eqn:?
          | |- context [match ?x with _ => _ end] => destruct x eqn:?
          | |- context [if ?b then _ else _] => destruct b eqn:?
          end);
  simpl.

(* ===================================================================== *)
(** ** The Schedule page: what it derives from the authorization table *)
(* ===================================================================== *)

Module Schedule.

(** [ScheduleType]: the members the page names, and any other member. *)
Inductive ScheduleType : Type :=
| Calendar
| Ical
| API
| OtherScheduleType (n : nat).

(** The fields of a [Schedule] the page reads. *)
Record ScheduleItem : Type := MkSchedule {
  schedule_id : string;
  schedule_name : string;
  schedule_type : ScheduleType
}.

(** The value of an [a || b || c || d] chain whose first two operands are
    booleans and whose last two are optional shift ids: the first truthy
    operand, or the last operand. *)
Inductive DisabledValue : Type :=
| DisabledBool (b : bool)
| DisabledShift (shiftId : option string).

Definition truthy_value (v : DisabledValue) : bool :=
  match v with
  | DisabledBool b => b
  | DisabledShift s => JS.truthy_ostring s
  end.

Section Page.

(** [startMoment] is a [dayjs] value. *)
Context {Moment : Type}.

Record SchedulePageState : Type := MkState {
  startMoment : Moment;
  schedulePeriodType : string;
  renderType : string;
  shiftIdToShowRotationForm : option string;
  shiftIdToShowOverridesForm : option string;
  isLoading : bool;
  showEditForm : bool;
  showScheduleICalSettings : bool
}.

(** The state the constructor sets, for the start of the current week. *)
Definition initial_state (startOfWeek : Moment) : SchedulePageState :=
  MkState startOfWeek "week" "timeline" None None true false false.

(** [schedule?.type !== ScheduleType.API] *)
Definition not_api (schedule : option ScheduleItem) : bool :=
  match schedule_type <$> schedule with
  | Some API => false
  | _ => true
  end.

(** The [disabled] flag [render] passes to the final schedule, the
    rotations and the overrides. *)
Definition disabled (host : Authorization.Host) (schedule : option ScheduleItem)
    (s : SchedulePageState) : DisabledValue :=
  if negb (Authorization.isUserActionAllowed host
             (Authorization.UserActions Authorization.SchedulesWrite))
  then DisabledBool true
  else if not_api schedule
  then DisabledBool true
  else if JS.truthy_ostring (shiftIdToShowRotationForm s)
  then DisabledShift (shiftIdToShowRotationForm s)
  else DisabledShift (shiftIdToShowOverridesForm s).

(** Whether [render] shows the Reload button:
    [schedule?.type === Ical || schedule?.type === Calendar]. *)
Definition reload_shown (schedule : option ScheduleItem) : bool :=
  match schedule_type <$> schedule with
  | Some Ical | Some Calendar => true
  | _ => false
  end.

Definition handleShowRotationForm (shiftId : string) (s : SchedulePageState) :=
  MkState (startMoment s) (schedulePeriodType s) (renderType s) (Some shiftId)
    (shiftIdToShowOverridesForm s) (isLoading s) (showEditForm s)
    (showScheduleICalSettings s).

Definition handleShowOverridesForm (shiftId : string) (s : SchedulePageState) :=
  MkState (startMoment s) (schedulePeriodType s) (renderType s)
    (shiftIdToShowRotationForm s) (Some shiftId) (isLoading s) (showEditForm s)
    (showScheduleICalSettings s).

(** [handleShowForm], run when [updateOncallShift] resolved with a shift
    of the given [type]. *)
Definition handleShowForm (shiftId : string) (shift_type : Z)
    (s : SchedulePageState) : SchedulePageState :=
  if (shift_type =? 2)%Z then handleShowRotationForm shiftId s
  else if (shift_type =? 3)%Z then handleShowOverridesForm shiftId s
  else s.

End Page.

End Schedule.

(* ===================================================================== *)
(** ** The Incidents page: what [renderBulkActions] shows *)
(* ===================================================================== *)

Module IncidentsRender.
Import Incidents.

(** The fields of an alert group [renderBulkActions] reads;
    [undoAction] is kept as its truthiness. *)
Record Alert : Type := MkAlert {
  pk : string;
  undoAction : bool
}.

(** A bulk control: its caption, the action it passes to
    [getBulkActionClickHandler], and whether it is disabled. *)
Record BulkControl : Type := MkControl {
  caption : string;
  bulk_action : string;
  control_disabled : bool
}.

(** What [renderBulkActions] shows: the controls, the selection text, and
    the out-of-date notice ([None] when it is not shown, otherwise whether
    its Refresh button is disabled). *)
Record BulkActionsView : Type := MkView {
  controls : list BulkControl;
  selection_text : string;
  out_of_date : option bool
}.

Section Render.

Context {IncidentsFiltersType : Type}.

(** [Boolean((results && results.some(a => a.undoAction))
             || Object.keys(affectedRows).length)] *)
Definition hasInvalidatedAlert (results : option (list Alert))
    (p : Page IncidentsFiltersType) : bool :=
  match results with
  | Some l => existsb undoAction l
  | None => false
  end
  || (0 <? size (affectedRows (state p))).

(** The text next to the bulk controls. *)
Definition selected_text (n : nat) : string :=
  if 0 <? n
  then pretty n +:+ " alert group" +:+ (if 1 <? n then "s" else "") +:+ " selected"
  else "No alert groups selected".

(** [renderBulkActions]: nothing while [store.alertGroupStore.bulkActions]
    is not loaded; otherwise one control per key found in it (the keys are
    tested as the source tests them), the selection text and the
    out-of-date notice.  [results] is
    [store.alertGroupStore.getAlertSearchResult('default')]. *)
Definition renderBulkActions (bulkActions : option (gset string))
    (results : option (list Alert)) (alertGroupsLoading : bool)
    (p : Page IncidentsFiltersType) : option BulkActionsView :=
  match bulkActions with
  | None => None
  | Some keys =>
      let off := negb (hasSelected p) in
      let control (key caption action : string) :=
        if bool_decide (key ∈ keys) then [MkControl caption action off] else [] in
      Some (MkView
              (control "resolve" "Resolve" "resolve"
               ++ control "acknowledge" "Acknowledge" "acknowledge"
               ++ control "silence" "Restart" "restart"
               ++ control "restart" "Silence" "silence")%list
              (selected_text (length (selectedIncidentIds (state p))))
              (if hasInvalidatedAlert results p then Some alertGroupsLoading else None))
  end.

(** Every active polling interval fetches with the filters of the state. *)
Definition polls_current_filters (p : Page IncidentsFiltersType) : Prop :=
  ∀ i cb, JS.active (timers p) !! i = Some cb → poll_filters cb = filters (state p).

End Render.

End IncidentsRender.

(* ===================================================================== *)
(** ** The Integrations page: repeated timer firings *)
(* ===================================================================== *)

Module IntegrationsRuns.
Import Integrations.

Section Runs.

Context {ChannelData IntegrationSettingsTab ErrorData Error OptionValue S : Type}.
Context `{PageHelpers IntegrationSettingsTab ErrorData Error}.
Context `{AlertReceiveChannelStore ChannelData Error OptionValue S}.

(** [n] firings of the interval in a row. *)
Definition ticks (n : nat) (p : Page IntegrationSettingsTab ErrorData S) :
    Page IntegrationSettingsTab ErrorData S :=
  Nat.iter n checkTimerTick p.

(** [n] calls of [updateItem] for the channel [selected]. *)
Definition updates (n : nat) (selected : option string) (s : S) : S :=
  Nat.iter n (updateItem selected) s.

(** The id of the last [LocationHelper.update({ id }, 'partial')], if the
    last location update was one. *)
Definition last_location_id (p : Page IntegrationSettingsTab ErrorData S) :
    option (option string) :=
  match last (location p) with
  | Some (UpdateId i) => Some i
  | _ => None
  end.

End Runs.

End IntegrationsRuns.

(* ===================================================================== *)
(** ** Properties of the authorization module *)
(* ===================================================================== *)

Module AuthorizationProofs.
Import Authorization.

Lemma truthy_bool_true (o : option bool) : JS.truthy_bool o = true ↔ o = Some true.
Proof. destruct o as [[|]|]; simpl; split; congruence. Qed.

Lemma permission_truthy_iff (u : ContextUser) (p : string) :
  permission_truthy u p = true ↔
  ∃ m : gmap string bool, permissions u = Some m ∧ m !! p = Some true.
Proof.
  unfold permission_truthy. destruct (permissions u) as [m|].
  - rewrite truthy_bool_true. split.
    + intros Hm. exists m. split; [reflexivity | exact Hm].
    + intros (m' & Heq & Hm). injection Heq as ->. exact Hm.
  - split; [discriminate | intros (m & Heq & _); discriminate].
Qed.

(** C1.  With the [accessControlOnCall] toggle enabled,
    [isUserActionAllowed] is true exactly when the user's permissions
    map holds a truthy entry for the action's permission string; with
    the toggle disabled it is
    [userHasMinimumRequiredRole fallbackMinimumRoleRequired].  Two hosts
    that agree on the toggle and on the one datum the chosen branch
    reads (the entry for the permission, or the role) get the same
    answer: nothing else takes part in the decision. *)
Theorem isUserActionAllowed_decision :
  (∀ (h : Host) (ua : UserAction),
      accessControlOnCall h = Some true →
      (isUserActionAllowed h ua = true ↔
       ∃ m : gmap string bool,
         permissions (user h) = Some m ∧ m !! permission ua = Some true))
  ∧ (∀ (h : Host) (ua : UserAction),
      accessControlOnCall h ≠ Some true →
      isUserActionAllowed h ua =
      userHasMinimumRequiredRole h (fallbackMinimumRoleRequired ua))
  ∧ (∀ (h h' : Host) (ua : UserAction),
      JS.truthy_bool (accessControlOnCall h) = JS.truthy_bool (accessControlOnCall h') →
      (accessControlOnCall h = Some true →
       permission_truthy (user h) (permission ua)
       = permission_truthy (user h') (permission ua)) →
      (accessControlOnCall h ≠ Some true → orgRole (user h) = orgRole (user h')) →
      isUserActionAllowed h ua = isUserActionAllowed h' ua).
Proof.
  split; [| split].
  - intros h ua Hon. unfold isUserActionAllowed. rewrite Hon. simpl.
    apply permission_truthy_iff.
  - intros h ua Hoff. unfold isUserActionAllowed.
    destruct (JS.truthy_bool (accessControlOnCall h)) eqn:E; [| reflexivity].
    apply truthy_bool_true in E. contradiction.
  - intros h h' ua Htoggle Hperm Hrole. unfold isUserActionAllowed.
    rewrite <- Htoggle.
    destruct (JS.truthy_bool (accessControlOnCall h)) eqn:E.
    + apply Hperm. apply truthy_bool_true. exact E.
    + unfold userHasMinimumRequiredRole. rewrite Hrole; [reflexivity |].
      intros Hon. apply truthy_bool_true in Hon. congruence.
Qed.

Example isUserActionAllowed_rbac_granted :
  isUserActionAllowed Samples.user_admin (UserActions SchedulesRead) = true.
Proof. vm_compute. reflexivity. Qed.

Example isUserActionAllowed_rbac_ignores_role :
  isUserActionAllowed Samples.user_admin (UserActions SchedulesWrite) = false.
Proof. vm_compute. reflexivity. Qed.

Lemma userHasMinimumRequiredRole_cases (r : option OrgRole) (p : option (gmap string bool))
    (t : option bool) (m : OrgRole) :
  userHasMinimumRequiredRole (MkHost (MkContextUser r p) t) m =
  match r, m with
  | Some Admin, _ => true
  | Some Editor, (Editor | Viewer) => true
  | Some Viewer, Viewer => true
  | _, _ => false
  end.
Proof. destruct r as [[| |]|], m; reflexivity. Qed.

(** C2.  [userHasMinimumRequiredRole m] is true exactly when the
    current user is an Admin, or an Editor and [m] is Editor or Viewer,
    or a Viewer and [m] is Viewer; hence a grant to a role is a grant to
    every role at least as privileged (Admin above Editor above
    Viewer). *)
Theorem userHasMinimumRequiredRole_threshold :
  (∀ (h : Host) (m : OrgRole),
      userHasMinimumRequiredRole h m = true ↔
      orgRole (user h) = Some Admin
      ∨ (orgRole (user h) = Some Editor ∧ (m = Editor ∨ m = Viewer))
      ∨ (orgRole (user h) = Some Viewer ∧ m = Viewer))
  ∧ (∀ (h : Host) (r r' : option OrgRole) (m : OrgRole),
      privilege r ≤ privilege r' →
      userHasMinimumRequiredRole (with_role h r) m = true →
      userHasMinimumRequiredRole (with_role h r') m = true).
Proof.
  split.
  - intros [[r p] t] m. rewrite userHasMinimumRequiredRole_cases. simpl.
    destruct r as [[| |]|], m; split; intros Hyp; try reflexivity; try discriminate;
      try (left; reflexivity);
      try (right; left; split; [reflexivity | (left; reflexivity) || (right; reflexivity)]);
      try (right; right; split; reflexivity);
      destruct Hyp as [Hyp | [[Hyp Hm] | [Hyp Hm]]]; try discriminate;
      destruct Hm; discriminate.
  - intros h r r' m Hle. unfold with_role.
    rewrite !userHasMinimumRequiredRole_cases.
    destruct r as [[| |]|], r' as [[| |]|], m; simpl in Hle;
      try reflexivity; try discriminate; lia.
Qed.

Lemma generatePermissionString_prefixed (r : Resource) (a : Action) :
  generatePermissionString r a true
  = "grafana-oncall-app." +:+ Resource_value r +:+ ":" +:+ Action_value a.
Proof. reflexivity. Qed.

Lemma generatePermissionString_bare (r : Resource) (a : Action) :
  generatePermissionString r a false = Resource_value r +:+ ":" +:+ Action_value a.
Proof. reflexivity. Qed.

Lemma bare_is_not_prefixed (r : Resource) (a : Action) :
  generatePermissionString r a false ≠ generatePermissionString r a true.
Proof. destruct r, a; vm_compute; discriminate. Qed.

(** C9.  Every entry of [UserActions] other than [TeamsWrite] and
    [PluginsInstall] has the permission string ["grafana-oncall-app."]
    followed by the resource, a colon and the action the entry is built
    from; those two have the bare strings ["teams:write"] and
    ["plugins:install"]; and [generatePermissionString] yields the
    prefixed form exactly when [includePrefix] is true (the bare form
    otherwise). *)
Theorem UserActions_permission_strings :
  (∀ a : Actions,
      a ≠ TeamsWrite → a ≠ PluginsInstall →
      permission (UserActions a)
      = "grafana-oncall-app." +:+ Resource_value (entry_resource a)
          +:+ ":" +:+ Action_value (entry_action a))
  ∧ permission (UserActions TeamsWrite) = "teams:write"
  ∧ permission (UserActions PluginsInstall) = "plugins:install"
  ∧ (∀ (r : Resource) (a : Action) (includePrefix : bool),
      generatePermissionString r a includePrefix
      = "grafana-oncall-app." +:+ Resource_value r +:+ ":" +:+ Action_value a
      ↔ includePrefix = true)
  ∧ (∀ (r : Resource) (a : Action),
      generatePermissionString r a false = Resource_value r +:+ ":" +:+ Action_value a).
Proof.
  split; [| split; [| split; [| split]]].
  - intros a Hteams Hplugins. destruct a; try reflexivity; contradiction.
  - reflexivity.
  - reflexivity.
  - intros r a [|]; split; intros Hyp; try reflexivity; try discriminate.
    exfalso. apply (bare_is_not_prefixed r a). exact Hyp.
  - intros r a. reflexivity.
Qed.

(** The table builds [SchedulesExport] from [Action.WRITE]: its
    permission string is the one of [SchedulesWrite], and no entry uses
    ["export"]. *)
Remark SchedulesExport_permission :
  permission (UserActions SchedulesExport) = "grafana-oncall-app.schedules:write"
  ∧ permission (UserActions SchedulesExport) = permission (UserActions SchedulesWrite)
  ∧ ∀ a : Actions, entry_action a ≠ EXPORT.
Proof.
  split; [reflexivity | split; [reflexivity |]].
  intros a. destruct a; discriminate.
Qed.

End AuthorizationProofs.

(* ===================================================================== *)
(** ** Properties of the Incidents page *)
(* ===================================================================== *)

Module IncidentsProofs.
Import Incidents.

Section Proofs.

Context {F : Type} `{StringCoercion} `{AlertGroupStoreMethods F}.
Implicit Types p : Page F.

(** *** Timers *)

Lemma at_most_one_key {C : Type} (m : gmap positive C) (i : positive) :
  (∀ k, is_Some (m !! k) → k = i) → size m ≤ 1.
Proof.
  intros Hkeys. rewrite <- size_dom.
  assert (Hsub : dom m ⊆ ({[ i ]} : gset positive)).
  { intros k Hk. apply elem_of_dom in Hk. apply Hkeys in Hk. set_solver. }
  apply subseteq_size in Hsub. rewrite size_singleton in Hsub. exact Hsub.
Qed.

Lemma tracked_none_empty p :
  timers_tracked p → pollingIntervalId p = None → JS.active (timers p) = ∅.
Proof.
  intros [Htr _] Hnone. apply map_empty. intros i.
  destruct (JS.active (timers p) !! i) as [cb|] eqn:E; [| reflexivity].
  assert (Hs : pollingIntervalId p = Some i) by (apply Htr; eauto).
  congruence.
Qed.

Lemma tracked_size p : timers_tracked p → size (JS.active (timers p)) ≤ 1.
Proof.
  intros Htr. destruct (pollingIntervalId p) as [i|] eqn:E.
  - apply (at_most_one_key _ i). intros k Hk.
    destruct Htr as [Htr _]. apply Htr in Hk. congruence.
  - rewrite (tracked_none_empty p Htr E). rewrite map_size_empty. lia.
Qed.

Lemma clearPollingInterval_empty p :
  timers_tracked p →
  JS.active (timers (clearPollingInterval p)) = ∅
  ∧ pollingIntervalId (clearPollingInterval p) = None
  ∧ JS.timers_wf (timers (clearPollingInterval p)).
Proof.
  intros Htr. pose proof Htr as [Hone Hwf].
  unfold clearPollingInterval. simpl.
  destruct (pollingIntervalId p) as [i|] eqn:E; simpl.
  - split; [| split; [reflexivity |]].
    + apply map_empty. intros k. destruct (decide (k = i)) as [->|Hne].
      * apply lookup_delete_eq.
      * rewrite lookup_delete_ne by congruence.
        destruct (JS.active (timers p) !! k) eqn:Ek; [| reflexivity].
        assert (Hs : Some i = Some k) by (apply Hone; eauto). congruence.
    + intros k Hk. apply Hwf. simpl in Hk.
      destruct (decide (k = i)) as [->|Hne].
      * rewrite lookup_delete_eq in Hk. destruct Hk; discriminate.
      * rewrite lookup_delete_ne in Hk by congruence. exact Hk.
  - split; [| split; [reflexivity | exact Hwf]].
    apply (tracked_none_empty p Htr E).
Qed.

Lemma setPollingInterval_single fo io p :
  JS.active (timers p) = ∅ →
  pollingIntervalId (setPollingInterval fo io p) = Some (JS.next (timers p))
  ∧ JS.active (timers (setPollingInterval fo io p))
    = {[ JS.next (timers p) :=
           MkPoll (match fo with Some f => Some f | None => filters (state p) end)
             (default false io) 15000 ]}
  ∧ JS.timers_wf (timers (setPollingInterval fo io p)).
Proof.
  intros Hempty. unfold setPollingInterval, JS.setInterval. simpl.
  rewrite Hempty. split; [reflexivity | split; [reflexivity |]].
  intros k Hk. simpl in *.
  destruct (decide (k = JS.next (timers p))) as [->|Hne].
  - lia.
  - rewrite insert_empty, lookup_singleton_ne in Hk by congruence.
    destruct Hk; discriminate.
Qed.

Lemma single_tracked p i cb :
  pollingIntervalId p = Some i →
  JS.active (timers p) = {[ i := cb ]} →
  JS.timers_wf (timers p) →
  timers_tracked p.
Proof.
  intros Hid Hact Hwf. split; [| exact Hwf].
  intros k Hk. rewrite Hact in Hk.
  destruct (decide (k = i)) as [->|Hne]; [exact Hid |].
  rewrite lookup_singleton_ne in Hk by congruence. destruct Hk; discriminate.
Qed.

Lemma single_every_15s p i cb :
  JS.active (timers p) = {[ i := cb ]} → poll_ms cb = 15000%Z → polls_every_15s p.
Proof.
  intros Hact Hms k cb' Hk. rewrite Hact in Hk.
  destruct (decide (k = i)) as [->|Hne].
  - rewrite lookup_singleton_eq in Hk. congruence.
  - rewrite lookup_singleton_ne in Hk by congruence. discriminate.
Qed.

Lemma empty_every_15s p : JS.active (timers p) = ∅ → polls_every_15s p.
Proof. intros Hact k cb Hk. rewrite Hact, lookup_empty in Hk. discriminate. Qed.

Lemma hasSelected_false p :
  selectedIncidentIds (state p) = [] → hasSelected p = true → pollingIntervalId p = None.
Proof. unfold hasSelected. intros ->. simpl. discriminate. Qed.

(** *** The polling discipline is an invariant *)

Lemma polling_frame p p' :
  timers p' = timers p →
  pollingIntervalId p' = pollingIntervalId p →
  selectedIncidentIds (state p') = []
  ∨ selectedIncidentIds (state p') = selectedIncidentIds (state p) →
  polling_ok p ∧ polls_every_15s p →
  polling_ok p' ∧ polls_every_15s p'.
Proof.
  intros Ht Hid Hsel [[[Hone Hwf] Hnone] Hms].
  unfold polling_ok, timers_tracked, polls_every_15s, hasSelected.
  rewrite Ht, Hid. repeat split; try assumption.
  destruct Hsel as [-> | ->]; [simpl; discriminate | exact Hnone].
Qed.

Lemma polling_after_set fo io q p' :
  JS.active (timers q) = ∅ →
  timers p' = timers (setPollingInterval fo io q) →
  pollingIntervalId p' = pollingIntervalId (setPollingInterval fo io q) →
  selectedIncidentIds (state p') = [] →
  polling_ok p' ∧ polls_every_15s p'.
Proof.
  intros Hempty Ht Hid Hsel.
  destruct (setPollingInterval_single fo io q Hempty) as (Hnew & Hact & Hwf).
  rewrite <- Hid in Hnew. rewrite <- Ht in Hact, Hwf.
  split; [split |].
  - exact (single_tracked p' _ _ Hnew Hact Hwf).
  - apply hasSelected_false. exact Hsel.
  - exact (single_every_15s p' _ _ Hact eq_refl).
Qed.

Lemma polling_after_clear q p' :
  timers_tracked q →
  timers p' = timers (clearPollingInterval q) →
  pollingIntervalId p' = None →
  polling_ok p' ∧ polls_every_15s p'.
Proof.
  intros Htr Ht Hid.
  destruct (clearPollingInterval_empty q Htr) as (Hempty & _ & Hwf).
  rewrite <- Ht in Hempty, Hwf.
  split; [split; [split |] |].
  - intros i Hi. rewrite Hempty, lookup_empty in Hi. destruct Hi; discriminate.
  - exact Hwf.
  - intros _. exact Hid.
  - exact (empty_every_15s p' Hempty).
Qed.

Lemma constructor_polling (query : Query) (store0 : AlertGroupStore F) :
  polling_ok (constructor query store0) ∧ polls_every_15s (constructor query store0).
Proof.
  split; [split; [split |] |]; simpl.
  - intros i Hi. rewrite lookup_empty in Hi. destruct Hi; discriminate.
  - intros i Hi. simpl in Hi. rewrite lookup_empty in Hi. destruct Hi; discriminate.
  - reflexivity.
  - intros i cb Hi. simpl in Hi. rewrite lookup_empty in Hi. discriminate.
Qed.

Lemma handle_polling p (e : Event F) :
  polling_ok p ∧ polls_every_15s p →
  enabled p e = true →
  polling_ok (handle e p) ∧ polls_every_15s (handle e p).
Proof.
  intros Hinv Hen. pose proof Hinv as [[Htr Hnone] Hms].
  destruct e as [f m | c d | v | ids | i a | i v | i | a ev | | id]; simpl in *.
  - (* handleFiltersChange: clear, then set *)
    set (q := clearPollingInterval
                (if negb m
                 then setState
                        (set_pagination
                           (MkPagination 1
                              (incidentsItemsPerPage
                                 (store (setState
                                    (λ s, set_selectedIncidentIds []
                                            (set_filters (Some f) s)) p)))))
                        (setState
                           (λ s, set_selectedIncidentIds [] (set_filters (Some f) s)) p)
                 else setState
                        (λ s, set_selectedIncidentIds [] (set_filters (Some f) s)) p)).
    assert (Hq : JS.active (timers q) = ∅).
    { subst q. destruct m; simpl; apply clearPollingInterval_empty; exact Htr. }
    apply (polling_after_set (Some f) (Some m) q); try reflexivity; [exact Hq |].
    subst q. destruct m; reflexivity.
  - apply (polling_frame p); try reflexivity; [left; reflexivity | exact Hinv].
  - apply (polling_frame p); try reflexivity; [left; reflexivity | exact Hinv].
  - (* handleSelectedIncidentIdsChange *)
    unfold handleSelectedIncidentIdsChange.
    destruct (0 <? length ids) eqn:Eids.
    + apply (polling_after_clear (setState (set_selectedIncidentIds ids) p));
        [exact Htr | reflexivity | reflexivity].
    + simpl in Hen.
      apply (polling_after_set None None (setState (set_selectedIncidentIds ids) p));
        try reflexivity.
      * simpl. apply (tracked_none_empty p Htr). apply Hnone. exact Hen.
      * simpl. destruct ids; [reflexivity | discriminate].
  - apply (polling_frame p); try reflexivity; [right; reflexivity | exact Hinv].
  - apply (polling_frame p); try reflexivity; [right; reflexivity | exact Hinv].
  - apply (polling_frame p); try reflexivity; [right; reflexivity | exact Hinv].
  - (* getBulkActionClickHandler: the buttons are enabled, rows are selected *)
    apply (polling_after_set None None p); try reflexivity.
    apply (tracked_none_empty p Htr). apply Hnone.
    unfold bulk_buttons_disabled in Hen. apply negb_true_iff in Hen.
    apply negb_false_iff in Hen. exact Hen.
  - apply (polling_frame p); try reflexivity; [right; reflexivity | exact Hinv].
  - (* a timer firing only fetches *)
    unfold tick. destruct (JS.active (timers p) !! id); [| exact Hinv].
    apply (polling_frame p); try reflexivity; [right; reflexivity | exact Hinv].
Qed.

Lemma reachable_polling p : reachable p → polling_ok p ∧ polls_every_15s p.
Proof.
  induction 1 as [query store0 | p e _ IH Hen].
  - apply constructor_polling.
  - apply handle_polling; assumption.
Qed.

(** *** Pagination *)











(** *** Bulk actions *)

Lemma mark_affected_lookup (ids : list string) (rows : gmap string bool) (k : string) :
  mark_affected ids rows !! k = if decide (k ∈ ids) then Some true else rows !! k.
Proof.
  unfold mark_affected. revert rows.
  induction ids as [| i ids IH]; intros rows; simpl.
  - destruct (decide (k ∈ [])) as [Hin|_]; [| reflexivity].
    apply elem_of_nil in Hin. contradiction.
  - rewrite IH. destruct (decide (k ∈ ids)) as [Hin|Hnotin].
    + rewrite decide_True by (right; exact Hin). reflexivity.
    + destruct (decide (k = i)) as [->|Hne].
      * rewrite decide_True by left. apply lookup_insert_eq.
      * rewrite decide_False.
        -- apply lookup_insert_ne. congruence.
        -- intros Hin. apply elem_of_cons in Hin. destruct Hin; contradiction.
Qed.

Lemma mark_affected_all_true (ids : list string) (rows : gmap string bool) :
  all_true rows → all_true (mark_affected ids rows).
Proof.
  intros Hrows k v. rewrite mark_affected_lookup.
  destruct (decide (k ∈ ids)); [congruence | apply Hrows].
Qed.

Lemma reachable_any_all_true p : reachable_any p → all_true (affectedRows (state p)).
Proof.
  induction 1 as [query store0 | p e _ IH].
  - simpl. intros k v Hk. rewrite lookup_empty in Hk. discriminate.
  - destruct e as [f m | c d | v | ids | i a | i v | i | a ev | | id]; simpl;
      try exact IH.
    + destruct m; exact IH.
    + unfold handleSelectedIncidentIdsChange.
      destruct (0 <? length ids); simpl; exact IH.
    + apply mark_affected_all_true. exact IH.
    + intros k v Hk. rewrite lookup_empty in Hk. discriminate.
    + unfold tick. destruct (JS.active (timers p) !! id); simpl; exact IH.
Qed.

(** C4.  In every state the page goes through, a bulk action over the
    selected ids [S] empties [selectedIncidentIds], sets
    [affectedRows[id] = true] for every id of [S], leaves every entry
    that was present as it was, and calls the store's [bulkAction]
    once, with [alert_group_pks = S] and with the event as the delay
    when the event is a number and [0] otherwise. *)
Theorem getBulkActionClickHandler_effect p (action : BulkActionName) (event : ClickArg) :
  reachable_any p →
  let S := selectedIncidentIds (state p) in
  let p' := getBulkActionClickHandler action event p in
  selectedIncidentIds (state p') = []
  ∧ (∀ id, id ∈ S → affectedRows (state p') !! id = Some true)
  ∧ (∀ k v, affectedRows (state p) !! k = Some v → affectedRows (state p') !! k = Some v)
  ∧ (∀ k, k ∉ S → affectedRows (state p') !! k = affectedRows (state p) !! k)
  ∧ calls p' =
      (calls p ++ [bulkAction action S
                     (match event with ArgNumber n => n | _ => 0%Z end)])%list.
Proof.
  intros Hreach S p'. pose proof (reachable_any_all_true p Hreach) as Htrue.
  subst S p'. simpl. repeat split.
  - intros id Hin. rewrite mark_affected_lookup. rewrite decide_True by exact Hin.
    reflexivity.
  - intros k v Hk. rewrite mark_affected_lookup.
    destruct (decide (k ∈ selectedIncidentIds (state p))); [| exact Hk].
    apply Htrue in Hk. congruence.
  - intros k Hk. rewrite mark_affected_lookup. rewrite decide_False by exact Hk.
    reflexivity.
Qed.

(** *** Polling *)

(** X19.  In every state the rendered page reaches, provided that
    bulk buttons fire only while rows are selected and that the table
    reports an empty selection only after a non-empty one, at most one polling
    interval is active, it is the one recorded in [pollingIntervalId],
    its period is 15 seconds, and none is active while rows are
    selected.  [handleSelectedIncidentIdsChange] clears the interval
    for a non-empty selection and starts one for an empty selection;
    [handleFiltersChange] clears before it starts one;
    [getBulkActionClickHandler] starts one without clearing, none
    being active then. *)
Theorem polling_single_interval p :
  reachable p →
  size (JS.active (timers p)) ≤ 1
  ∧ (∀ i, is_Some (JS.active (timers p) !! i) → pollingIntervalId p = Some i)
  ∧ polls_every_15s p
  ∧ (hasSelected p = true → JS.active (timers p) = ∅)
  ∧ (∀ ids, ids ≠ [] →
      JS.active (timers (handleSelectedIncidentIdsChange ids p)) = ∅
      ∧ pollingIntervalId (handleSelectedIncidentIdsChange ids p) = None)
  ∧ (hasSelected p = true →
      ∃ id, pollingIntervalId (handleSelectedIncidentIdsChange [] p) = Some id
            ∧ JS.active (timers (handleSelectedIncidentIdsChange [] p))
              = {[ id := MkPoll (filters (state p)) false 15000 ]})
  ∧ (∀ f m,
      ∃ id, pollingIntervalId (handleFiltersChange f m p) = Some id
            ∧ JS.active (timers (handleFiltersChange f m p))
              = {[ id := MkPoll (Some f) m 15000 ]})
  ∧ (∀ a ev, hasSelected p = true →
      ∃ id, pollingIntervalId (getBulkActionClickHandler a ev p) = Some id
            ∧ JS.active (timers (getBulkActionClickHandler a ev p))
              = {[ id := MkPoll (filters (state p)) false 15000 ]}).
Proof.
  intros Hreach. destruct (reachable_polling p Hreach) as [[Htr Hnone] Hms].
  assert (Hsel : hasSelected p = true → JS.active (timers p) = ∅).
  { intros Hs. apply (tracked_none_empty p Htr). apply Hnone. exact Hs. }
  split; [exact (tracked_size p Htr) |].
  split; [exact (proj1 Htr) |].
  split; [exact Hms |].
  split; [exact Hsel |].
  split; [| split; [| split]].
  - intros ids Hids. unfold handleSelectedIncidentIdsChange.
    destruct ids as [| i ids]; [contradiction |]. simpl.
    destruct (clearPollingInterval_empty p Htr) as (Hempty & _ & _).
    split; [exact Hempty | reflexivity].
  - intros Hs. exists (JS.next (timers p)).
    destruct (setPollingInterval_single None None
                (setState (set_selectedIncidentIds []) p) (Hsel Hs)) as (Hid & Hact & _).
    split; [exact Hid | exact Hact].
  - intros f m.
    destruct (clearPollingInterval_empty p Htr) as (Hempty & _ & _).
    exists (JS.next (timers p)).
    unfold handleFiltersChange, fetchIncidentData, setPollingInterval, JS.setInterval.
    destruct m; simpl; simpl in Hempty.
    + split; [destruct (pollingIntervalId p); reflexivity |].
      destruct (pollingIntervalId p); simpl in *; rewrite Hempty; reflexivity.
    + split; [destruct (pollingIntervalId p); reflexivity |].
      destruct (pollingIntervalId p); simpl in *; rewrite Hempty; reflexivity.
  - intros a ev Hs. exists (JS.next (timers p)).
    destruct (setPollingInterval_single None None p (Hsel Hs)) as (Hid & Hact & _).
    split; [exact Hid | exact Hact].
Qed.

(** C5 (where the code departs from it).  Rows are selected, which
    clears the polling interval and records none.  Then another page is
    requested ([onChangeCursor]) or the page size is changed
    ([handleChangeItemsPerPage]): either empties the selection, and
    neither starts an interval; none is recorded afterwards, the timers
    are as they were, and no interval is active if the active ones were
    tracked before the selection.  The other ways by which the
    selection becomes empty do start a 15-second interval: the table
    reporting an empty selection, a bulk action, new filters. *)
Theorem polling_not_resumed (q : Page F) (ids : list string) :
  0 < length ids →
  let p := handleSelectedIncidentIdsChange ids q in
  (hasSelected p = true
   ∧ pollingIntervalId p = None
   ∧ (timers_tracked q → JS.active (timers p) = ∅))
  ∧ (∀ (cursor : string) (direction : Direction),
      let p' := onChangeCursor cursor direction p in
      selectedIncidentIds (state p') = []
      ∧ pollingIntervalId p' = None
      ∧ timers p' = timers p)
  ∧ (∀ value : float,
      let p' := handleChangeItemsPerPage value p in
      selectedIncidentIds (state p') = []
      ∧ pollingIntervalId p' = None
      ∧ timers p' = timers p)
  ∧ (∃ i, pollingIntervalId (handleSelectedIncidentIdsChange [] p) = Some i
          ∧ JS.active (timers (handleSelectedIncidentIdsChange [] p)) !! i
            = Some (MkPoll (filters (state p)) false 15000))
  ∧ (∀ (action : BulkActionName) (event : ClickArg),
      selectedIncidentIds (state (getBulkActionClickHandler action event p)) = []
      ∧ ∃ i, pollingIntervalId (getBulkActionClickHandler action event p) = Some i
             ∧ JS.active (timers (getBulkActionClickHandler action event p)) !! i
               = Some (MkPoll (filters (state p)) false 15000))
  ∧ (∀ (f : F) (m : bool),
      selectedIncidentIds (state (handleFiltersChange f m p)) = []
      ∧ ∃ i, pollingIntervalId (handleFiltersChange f m p) = Some i
             ∧ JS.active (timers (handleFiltersChange f m p)) !! i
               = Some (MkPoll (Some f) m 15000)).
Proof.
  intros Hids p.
  assert (Hp : p = clearPollingInterval (setState (set_selectedIncidentIds ids) q)).
  { subst p. unfold handleSelectedIncidentIdsChange.
    apply Nat.ltb_lt in Hids. rewrite Hids. reflexivity. }
  split; [| split; [| split; [| split; [| split]]]].
  - split; [| split].
    + rewrite Hp. unfold hasSelected. simpl. apply Nat.ltb_lt. exact Hids.
    + rewrite Hp. reflexivity.
    + intros Htr. rewrite Hp.
      apply (clearPollingInterval_empty (setState (set_selectedIncidentIds ids) q)).
      exact Htr.
  - intros cursor direction p'. subst p'. rewrite Hp. repeat split.
  - intros value p'. subst p'. rewrite Hp. repeat split.
  - exists (JS.next (timers p)). split; [reflexivity |].
    unfold handleSelectedIncidentIdsChange at 1. simpl.
    apply lookup_insert_eq.
  - intros action event. split; [reflexivity |].
    exists (JS.next (timers p)). split; [reflexivity |].
    simpl. apply lookup_insert_eq.
  - intros f m. split; [destruct m; reflexivity |].
    exists (JS.next (timers (clearPollingInterval p))).
    split; [destruct m; reflexivity |].
    destruct m; simpl; apply lookup_insert_eq.
Qed.

End Proofs.

(** *** The theorems at work on a sample page *)

Import Samples.

Lemma plain_store_keeps_page_size : keeps_page_size (H := plain_store).
Proof. intros c s Hc. destruct c; try reflexivity. destruct (Hc value). reflexivity. Qed.

Lemma mounted_reachable : reachable mounted_incidents.
Proof.
  exact (reachable_handle fresh_incidents (FiltersChange "status=new" true)
           (reachable_constructor no_query empty_store) eq_refl).
Qed.

Lemma reachable_is_reachable_any (p : Page string) : reachable p → reachable_any p.
Proof.
  induction 1 as [query store0 | p e _ IH _].
  - apply reachable_any_constructor.
  - apply reachable_any_handle. exact IH.
Qed.

(** Two rows selected on the mounted page. *)
Lemma two_selected_reachable :
  reachable (handle (SelectedIncidentIdsChange ["I1"; "I2"]) mounted_incidents).
Proof. apply reachable_handle; [exact mounted_reachable | reflexivity]. Qed.

(** The constructor on sample queries: no parameters, a page deep into
    the list, and parameters that are no numeric literals. *)
Example constructor_no_query :
  pagination (state (constructor no_query empty_store)) = MkPagination 1 25.
Proof. vm_compute. reflexivity. Qed.

Example constructor_second_page :
  pagination (state (constructor (MkQuery (Some "c2") (QString "51") (QString "50"))
                       empty_store))
  = MkPagination 51 100.
Proof. vm_compute. reflexivity. Qed.

Example constructor_not_numbers :
  pagination (state (constructor (MkQuery None (QString "abc") (QString "x1"))
                       empty_store))
  = MkPagination 1 25.
Proof. vm_compute. reflexivity. Qed.




Lemma getBulkActionClickHandler_effect_witness :
  let p := handle (SelectedIncidentIdsChange ["I1"; "I2"]) mounted_incidents in
  let p' := getBulkActionClickHandler (ActionString "silence") (ArgNumber 3600) p in
  selectedIncidentIds (state p') = []
  ∧ affectedRows (state p') !! "I2" = Some true
  ∧ calls p' = (calls p ++ [bulkAction (ActionString "silence") ["I1"; "I2"] 3600%Z])%list.
Proof.
  intros p p'.
  destruct (getBulkActionClickHandler_effect p (ActionString "silence") (ArgNumber 3600)
              (reachable_is_reachable_any _ two_selected_reachable))
    as (Hsel & Hrows & _ & _ & Hcalls).
  split; [exact Hsel | split; [| exact Hcalls]].
  apply Hrows. right. left.
Defined.

Lemma polling_single_interval_witness :
  size (JS.active (timers mounted_incidents)) ≤ 1
  ∧ JS.active (timers (handleSelectedIncidentIdsChange ["I1"] mounted_incidents)) = ∅.
Proof.
  destruct (polling_single_interval mounted_incidents mounted_reachable)
    as (Hsize & _ & _ & _ & Hclear & _).
  split; [exact Hsize |].
  apply Hclear. discriminate.
Defined.

Lemma polling_not_resumed_witness :
  let p := handleSelectedIncidentIdsChange ["I1"; "I2"] mounted_incidents in
  selectedIncidentIds (state (onChangeCursor "c2" next p)) = []
  ∧ pollingIntervalId (onChangeCursor "c2" next p) = None
  ∧ JS.active (timers (onChangeCursor "c2" next p)) = ∅.
Proof.
  intros p.
  assert (Hids : 0 < length ["I1"; "I2"]) by (simpl; lia).
  destruct (polling_not_resumed mounted_incidents ["I1"; "I2"] Hids)
    as ((_ & _ & Hempty) & Hcursor & _).
  destruct (Hcursor "c2" next) as (Hsel & Hid & Htimers).
  split; [exact Hsel | split; [exact Hid |]].
  fold p in Htimers. rewrite Htimers. apply Hempty.
  apply (reachable_polling mounted_incidents mounted_reachable).
Defined.

End IncidentsProofs.

(* ===================================================================== *)
(** ** Properties of the Integrations page *)
(* ===================================================================== *)

Module IntegrationsProofs.
Import Integrations.

Section Proofs.

Context {ChannelData Tab ErrorData Error OptionValue S : Type}.
Context `{PageHelpers Tab ErrorData Error}.
Context `{AlertReceiveChannelStore ChannelData Error OptionValue S}.
Implicit Types p : Page Tab ErrorData S.

(** *** Loading the integration named in the query fails *)

(** C7.  When [query.id] is set and loading that integration fails
    with [error], [parseQueryParams] returns early with
    [getWrongTeamResponseInfo error] in [errorData], which is what the
    page hands to [PageErrorHandlingWrapper]; the selected
    integration, the other fields of the component state, the poll
    counters, the timer and the location are as before, and the store
    is as [loadItem] left it. *)
Theorem parseQueryParams_load_failure (query : Query Tab) p (i : string) (s' : S)
    (error : Error) :
  query_id query = Some i →
  JS.truthy_string i = true →
  loadItem i true (alertReceiveChannelStore p) = (s', inl error) →
  ∃ p',
    parseQueryParams query p = Returned p'
    ∧ errorData (state p') = getWrongTeamResponseInfo error
    ∧ wrapper_errorData (render_wrapper p') = getWrongTeamResponseInfo error
    ∧ selectedAlertReceiveChannel p' = selectedAlertReceiveChannel p
    ∧ integrationsFilters (state p') = integrationsFilters (state p)
    ∧ showCreateIntegrationModal (state p') = showCreateIntegrationModal (state p)
    ∧ alertReceiveChannelToShowSettings (state p')
      = alertReceiveChannelToShowSettings (state p)
    ∧ integrationSettingsTab (state p') = integrationSettingsTab (state p)
    ∧ alertReceiveChanneltoPoll p' = alertReceiveChanneltoPoll p
    ∧ alertReceiveChannelTimerId p' = alertReceiveChannelTimerId p
    ∧ timers p' = timers p
    ∧ location p' = location p
    ∧ alertReceiveChannelStore p' = s'.
Proof.
  intros Hid Htruthy Hload. unfold parseQueryParams.
  rewrite Hid. simpl. rewrite Htruthy, Hload.
  eexists. split; [reflexivity |]. simpl. repeat split.
Qed.

(** *** Applying the filters *)

Lemma find_selected_Some (l : list (AlertReceiveChannel ChannelData))
    (sel : option string) c :
  find_selected l sel = Some c → c ∈ l ∧ Some (id c) = sel.
Proof.
  unfold find_selected. intros Hfind. apply find_some in Hfind.
  destruct Hfind as [Hin Heq]. split.
  - apply list_elem_of_In. exact Hin.
  - apply bool_decide_eq_true in Heq. exact Heq.
Qed.

Lemma find_selected_None (l : list (AlertReceiveChannel ChannelData))
    (sel : option string) :
  find_selected l sel = None → ∀ c, c ∈ l → Some (id c) ≠ sel.
Proof.
  unfold find_selected. intros Hfind c Hin.
  apply list_elem_of_In in Hin.
  pose proof (find_none _ _ Hfind c Hin) as Hc. simpl in Hc.
  apply bool_decide_eq_false in Hc. exact Hc.
Qed.

(** C8.  When the refresh started by [applyFilters] resolves and the
    search result is defined, [applyFilters] completes, and then: a
    selection that occurs in the refreshed result is kept; otherwise
    the selection becomes the id of the first element, which is
    [undefined] for an empty result; so the selection is a member of
    every non-empty result. *)
Theorem applyFilters_selection p (s1 : S)
    (searchResult : list (AlertReceiveChannel ChannelData)) :
  updateItems (Some (searchTerm (integrationsFilters (state p))))
    (alertReceiveChannelStore p) = (s1, true) →
  getSearchResult s1 = Some searchResult →
  ∃ p',
    applyFilters p = Returned p'
    ∧ alertReceiveChannelStore p' = s1
    ∧ ((∃ c, c ∈ searchResult ∧ Some (id c) = selectedAlertReceiveChannel p) →
       selectedAlertReceiveChannel p' = selectedAlertReceiveChannel p)
    ∧ ((∀ c, c ∈ searchResult → Some (id c) ≠ selectedAlertReceiveChannel p) →
       selectedAlertReceiveChannel p' = first_id searchResult)
    ∧ (searchResult = [] → selectedAlertReceiveChannel p' = None)
    ∧ (searchResult ≠ [] →
       ∃ c, c ∈ searchResult ∧ selectedAlertReceiveChannel p' = Some (id c)).
Proof.
  intros Hupdate Hresult. unfold applyFilters. rewrite Hupdate. simpl.
  rewrite Hresult.
  destruct (find_selected searchResult (selectedAlertReceiveChannel p)) as [c|] eqn:Efind.
  - apply find_selected_Some in Efind. destruct Efind as [Hin Hsel].
    eexists. split; [reflexivity |]. simpl.
    split; [reflexivity |]. split; [reflexivity |]. split; [| split].
    + intros Hnone. exfalso. exact (Hnone c Hin Hsel).
    + intros ->. apply elem_of_nil in Hin. contradiction.
    + intros _. exists c. split; [exact Hin | symmetry; exact Hsel].
  - pose proof (find_selected_None _ _ Efind) as Hnone.
    eexists. split; [reflexivity |]. simpl.
    split; [reflexivity |]. split; [| split; [| split]].
    + intros (c & Hin & Hsel). exfalso. exact (Hnone c Hin Hsel).
    + intros _. destruct searchResult; reflexivity.
    + intros ->. reflexivity.
    + intros Hne. destruct searchResult as [| c rest]; [contradiction |].
      exists c. split; [left | reflexivity].
Qed.

(** *** What parsing the query leaves alone *)

Lemma parseQueryParams_frame (query : Query Tab) p :
  alertReceiveChanneltoPoll (outcome (parseQueryParams query p))
  = alertReceiveChanneltoPoll p
  ∧ alertReceiveChannelTimerId (outcome (parseQueryParams query p))
    = alertReceiveChannelTimerId p
  ∧ timers (outcome (parseQueryParams query p)) = timers p.
Proof.
  unfold parseQueryParams, parseQueryParams_select. branch; repeat split.
Qed.

Lemma componentDidMount_frame (query : Query Tab) p :
  alertReceiveChanneltoPoll (outcome (componentDidMount query p))
  = alertReceiveChanneltoPoll p
  ∧ alertReceiveChannelTimerId (outcome (componentDidMount query p))
    = alertReceiveChannelTimerId p
  ∧ timers (outcome (componentDidMount query p)) = timers p.
Proof.
  unfold componentDidMount, update.
  destruct (updateItems None (alertReceiveChannelStore p)) as [s' ok].
  destruct ok; [| repeat split].
  apply (parseQueryParams_frame query (set_store s' p)).
Qed.

(** *** The poll counters *)

Lemma counters_ok_insert (m : gmap string Z) (k : string) (v : Z) :
  (0 ≤ v ≤ 200)%Z → counters_ok m → counters_ok (<[k := v]> m).
Proof.
  intros Hv Hm k' c. destruct (decide (k = k')) as [->|Hne].
  - rewrite lookup_insert_eq. intros [= <-]. exact Hv.
  - rewrite lookup_insert_ne by exact Hne. apply Hm.
Qed.

Lemma counters_ok_delete (m : gmap string Z) (k : string) :
  counters_ok m → counters_ok (delete k m).
Proof.
  intros Hm k' c. destruct (decide (k = k')) as [->|Hne].
  - rewrite lookup_delete_eq. discriminate.
  - rewrite lookup_delete_ne by exact Hne. apply Hm.
Qed.

Lemma checkTimerTick_counters_ok p :
  counters_ok (alertReceiveChanneltoPoll p) →
  counters_ok (alertReceiveChanneltoPoll (checkTimerTick p)).
Proof.
  intros Hm. unfold checkTimerTick.
  destruct (alertReceiveChanneltoPoll p !! JS.prop_key (selectedAlertReceiveChannel p))
    as [counter|] eqn:E; [| exact Hm].
  destruct (counter >? 0)%Z eqn:Epos; simpl.
  - apply counters_ok_insert; [| exact Hm].
    apply Hm in E. apply Z.gtb_lt in Epos. lia.
  - apply counters_ok_delete. exact Hm.
Qed.

Lemma handle_counters_ok p (e : Event ChannelData Tab OptionValue) :
  counters_ok (alertReceiveChanneltoPoll p) →
  counters_ok (alertReceiveChanneltoPoll (handle e p)).
Proof.
  intros Hm. destruct e; simpl; try exact Hm.
  - rewrite (proj1 (componentDidMount_frame query p)). exact Hm.
  - rewrite (proj1 (parseQueryParams_frame query p)). exact Hm.
  - unfold handleCreateNewAlertReceiveChannel, onCreated, onCreated_resume.
    branch; try exact Hm; (apply counters_ok_insert; [lia | exact Hm]).
  - unfold handleDeleteAlertReceiveChannel.
    branch; try exact Hm; apply counters_ok_delete; exact Hm.
  - unfold applyFilters. branch; exact Hm.
  - destruct (JS.active (timers p) !! timerId); [| exact Hm].
    apply checkTimerTick_counters_ok. exact Hm.
  - unfold onCreated_resume.
    branch; try exact Hm; (apply counters_ok_insert; [lia | exact Hm]).
Qed.

Lemma reachable_counters_ok p : reachable p → counters_ok (alertReceiveChanneltoPoll p).
Proof.
  induction 1 as [selected s | p e _ IH].
  - intros k c Hk. simpl in Hk. rewrite lookup_empty in Hk. discriminate.
  - apply handle_counters_ok. exact IH.
Qed.

(** C10.  In every state the page goes through, every counter of
    [alertReceiveChanneltoPoll] is an integer between 0 and 200, and a
    [checkTimerTick] touches at most the entry of the selected channel:
    a positive counter triggers one [updateItem] of the store and is
    decremented by one, a counter [0] is removed (the store is not
    called), an absent entry leaves everything as it is; the entries
    of all other channels are unchanged. *)
Theorem checkTimerTick_counters p :
  reachable p →
  let key := JS.prop_key (selectedAlertReceiveChannel p) in
  let p' := checkTimerTick p in
  (∀ k counter, alertReceiveChanneltoPoll p !! k = Some counter → (0 ≤ counter ≤ 200)%Z)
  ∧ (∀ k counter, alertReceiveChanneltoPoll p' !! k = Some counter → (0 ≤ counter ≤ 200)%Z)
  ∧ (∀ k, k ≠ key → alertReceiveChanneltoPoll p' !! k = alertReceiveChanneltoPoll p !! k)
  ∧ (∀ counter,
      alertReceiveChanneltoPoll p !! key = Some counter → (0 < counter)%Z →
      alertReceiveChanneltoPoll p' !! key = Some (counter - 1)%Z
      ∧ alertReceiveChannelStore p'
        = updateItem (selectedAlertReceiveChannel p) (alertReceiveChannelStore p))
  ∧ (alertReceiveChanneltoPoll p !! key = Some 0%Z →
      alertReceiveChanneltoPoll p' !! key = None
      ∧ alertReceiveChannelStore p' = alertReceiveChannelStore p)
  ∧ (alertReceiveChanneltoPoll p !! key = None → p' = p).
Proof.
  intros Hreach key p'. pose proof (reachable_counters_ok p Hreach) as Hm.
  split; [exact Hm |].
  split; [exact (checkTimerTick_counters_ok p Hm) |].
  subst key p'. unfold checkTimerTick.
  split; [| split; [| split]].
  - intros k Hk.
    destruct (alertReceiveChanneltoPoll p !! JS.prop_key (selectedAlertReceiveChannel p))
      as [counter|]; [| reflexivity].
    destruct (counter >? 0)%Z; simpl.
    + apply lookup_insert_ne. congruence.
    + apply lookup_delete_ne. congruence.
  - intros counter -> Hpos.
    assert (Hgt : (counter >? 0)%Z = true) by (apply Z.gtb_lt; lia).
    rewrite Hgt. simpl. split; [apply lookup_insert_eq | reflexivity].
  - intros ->. simpl. split; [apply lookup_delete_eq | reflexivity].
  - intros ->. reflexivity.
Qed.

(** *** The timer *)

Lemma initial_timer_ok (selected : option string) (s : S) :
  timer_ok (initial_page selected s).
Proof.
  split; intros i Hi; simpl in Hi; rewrite lookup_empty in Hi;
    destruct Hi; discriminate.
Qed.

Lemma timer_frame p p' :
  timers p' = timers p →
  alertReceiveChannelTimerId p' = alertReceiveChannelTimerId p →
  timer_ok p → timer_ok p'.
Proof. unfold timer_ok. intros -> ->. intros Hok. exact Hok. Qed.

Lemma timer_none_empty p :
  timer_ok p → alertReceiveChannelTimerId p = None → JS.active (timers p) = ∅.
Proof.
  intros [Hone _] Hnone. apply map_empty. intros i.
  destruct (JS.active (timers p) !! i) eqn:E; [| reflexivity].
  assert (Hs : alertReceiveChannelTimerId p = Some i) by (apply Hone; eauto).
  congruence.
Qed.

Lemma onCreated_resume_timer_ok (c : AlertReceiveChannel ChannelData) p :
  timer_ok p → timer_ok (onCreated_resume c p).
Proof.
  intros Hok. unfold onCreated_resume. simpl.
  destruct (bool_decide _); [| exact Hok]. simpl.
  destruct (alertReceiveChannelTimerId p) as [t|] eqn:Et; [exact Hok |].
  simpl. pose proof (timer_none_empty p Hok Et) as Hempty.
  destruct Hok as [_ Hwf]. split; simpl.
  - intros i Hi. rewrite Hempty in Hi.
    destruct (decide (i = JS.next (timers p))) as [->|Hne]; [reflexivity |].
    rewrite insert_empty, lookup_singleton_ne in Hi by congruence.
    destruct Hi; discriminate.
  - intros i Hi. simpl in *. rewrite Hempty in Hi.
    destruct (decide (i = JS.next (timers p))) as [->|Hne]; [lia |].
    rewrite insert_empty, lookup_singleton_ne in Hi by congruence.
    destruct Hi; discriminate.
Qed.

Lemma onCreated_timer_ok (c : AlertReceiveChannel ChannelData) p :
  timer_ok p → timer_ok (onCreated c p).
Proof.
  intros Hok. unfold onCreated.
  destruct (updateItems None (alertReceiveChannelStore p)) as [s1 ok].
  destruct ok; [| exact Hok].
  apply onCreated_resume_timer_ok. exact Hok.
Qed.

Lemma handle_timer_ok p (e : Event ChannelData Tab OptionValue) :
  timer_ok p → timer_ok (handle e p).
Proof.
  intros Hok. destruct e; simpl; try exact Hok.
  - destruct (componentDidMount_frame query p) as (_ & Hid & Ht).
    exact (timer_frame p _ Ht Hid Hok).
  - destruct (parseQueryParams_frame query p) as (_ & Hid & Ht).
    exact (timer_frame p _ Ht Hid Hok).
  - unfold handleCreateNewAlertReceiveChannel.
    destruct (create option_value (alertReceiveChannelStore p)) as [s1 [c|]];
      [| exact Hok].
    apply onCreated_timer_ok. exact Hok.
  - unfold handleDeleteAlertReceiveChannel. branch; exact Hok.
  - unfold applyFilters. branch; exact Hok.
  - destruct (JS.active (timers p) !! timerId); [| exact Hok].
    unfold checkTimerTick. branch; exact Hok.
  - apply onCreated_resume_timer_ok. exact Hok.
Qed.

Lemma reachable_timer_ok p : reachable p → timer_ok p.
Proof.
  induction 1 as [selected s | p e _ IH].
  - apply initial_timer_ok.
  - apply handle_timer_ok. exact IH.
Qed.

Lemma unmount_no_timers p :
  reachable p → JS.active (timers (componentWillUnmount p)) = ∅.
Proof.
  intros Hreach. pose proof (reachable_timer_ok p Hreach) as Hok.
  unfold componentWillUnmount. simpl.
  destruct (alertReceiveChannelTimerId p) as [t|] eqn:Et; simpl.
  - destruct Hok as [Hone _]. apply map_empty. intros i.
    destruct (decide (i = t)) as [->|Hne]; [apply lookup_delete_eq |].
    rewrite lookup_delete_ne by congruence.
    destruct (JS.active (timers p) !! i) eqn:E; [| reflexivity].
    assert (Hs : alertReceiveChannelTimerId p = Some i) by (apply Hone; eauto).
    congruence.
  - apply timer_none_empty; assumption.
Qed.

End Proofs.

(** *** The theorems at work on a sample page *)

Import Samples.

Lemma parseQueryParams_load_failure_witness :
  let p' := outcome (parseQueryParams (MkQuery (Some "Z") None) fresh_integrations) in
  errorData (state p') = Some "wrong team"
  ∧ selectedAlertReceiveChannel p' = Some "A".
Proof.
  assert (Hload : loadItem "Z" true (alertReceiveChannelStore fresh_integrations)
                  = ([channel "A"; channel "B"], inl "wrong team"))
    by (vm_compute; reflexivity).
  destruct (parseQueryParams_load_failure (MkQuery (Some "Z") None) fresh_integrations
              "Z" [channel "A"; channel "B"] "wrong team" eq_refl eq_refl Hload)
    as (p' & Hret & Herr & _ & Hsel & _).
  rewrite Hret. simpl. split; [exact Herr | exact Hsel].
Defined.

Lemma applyFilters_selection_witness :
  selectedAlertReceiveChannel (outcome (applyFilters stale_selection)) = Some "A".
Proof.
  assert (Hupdate : updateItems (Some (searchTerm (integrationsFilters
                                                      (state stale_selection))))
                      (alertReceiveChannelStore stale_selection)
                    = ([channel "A"; channel "B"], true))
    by (vm_compute; reflexivity).
  assert (Hresult : getSearchResult [channel "A"; channel "B"]
                    = Some [channel "A"; channel "B"])
    by (vm_compute; reflexivity).
  destruct (applyFilters_selection stale_selection [channel "A"; channel "B"]
              [channel "A"; channel "B"] Hupdate Hresult)
    as (p' & Hret & _ & _ & Hfirst & _).
  rewrite Hret. simpl. rewrite Hfirst; [reflexivity |].
  intros c Hin Hc.
  apply elem_of_cons in Hin. destruct Hin as [-> | Hin]; [discriminate |].
  apply elem_of_cons in Hin. destruct Hin as [-> | Hin]; [discriminate |].
  apply elem_of_nil in Hin. exact Hin.
Defined.

Lemma checkTimerTick_counters_witness :
  alertReceiveChanneltoPoll
    (checkTimerTick (handle (CreateChannel "G") fresh_integrations)) !! "G"
  = Some 199%Z.
Proof.
  destruct (checkTimerTick_counters (handle (CreateChannel "G") fresh_integrations)
              (reachable_handle _ (CreateChannel "G")
                 (reachable_initial (Some "A") [channel "A"; channel "B"])))
    as (_ & _ & _ & Hdec & _).
  assert (Hentry : alertReceiveChanneltoPoll
                     (handle (CreateChannel "G") fresh_integrations)
                   !! JS.prop_key (selectedAlertReceiveChannel
                                     (handle (CreateChannel "G") fresh_integrations))
                   = Some 200%Z)
    by (vm_compute; reflexivity).
  destruct (Hdec 200%Z Hentry eq_refl) as [Hcounter _].
  exact Hcounter.
Defined.

End IntegrationsProofs.

(* ===================================================================== *)
(** ** Unmounting the pages *)
(* ===================================================================== *)

Module UnmountProofs.

Section Proofs.

Context {F : Type} `{Incidents.StringCoercion} `{Incidents.AlertGroupStoreMethods F}.
Context {ChannelData Tab ErrorData Error OptionValue S : Type}.
Context `{Integrations.PageHelpers Tab ErrorData Error}.
Context `{Integrations.AlertReceiveChannelStore ChannelData Error OptionValue S}.

(** X20.  Unmounting clears the intervals started so far.  For an
    Incidents page in a state the rendered page reaches (the table
    reporting an empty selection only after a non-empty one), unmounting
    clears the polling interval and resets [pollingIntervalId] to
    [undefined]; for an Integrations page in any state it goes through,
    the steps of a creation interleaved with other events included,
    unmounting clears the alert-receive-channel timer.  No interval of
    either page is active right after the unmount, and a firing does
    nothing.  What a callback that settles after the unmount starts is
    not covered. *)
Theorem polling_cancelled_on_unmount (incidents : Incidents.Page F)
    (integrations : Integrations.Page Tab ErrorData S) :
  Incidents.reachable incidents →
  Integrations.reachable integrations →
  (Incidents.pollingIntervalId (Incidents.componentWillUnmount incidents) = None
   ∧ JS.active (Incidents.timers (Incidents.componentWillUnmount incidents)) = ∅
   ∧ ∀ id, Incidents.tick id (Incidents.componentWillUnmount incidents)
           = Incidents.componentWillUnmount incidents)
  ∧ (JS.active (Integrations.timers (Integrations.componentWillUnmount integrations)) = ∅
     ∧ ∀ id, Integrations.handle (Integrations.TimerTick id)
               (Integrations.componentWillUnmount integrations)
             = Integrations.componentWillUnmount integrations).
Proof.
  intros Hinc Hint. split.
  - destruct (IncidentsProofs.reachable_polling incidents Hinc) as [[Htr _] _].
    destruct (IncidentsProofs.clearPollingInterval_empty incidents Htr)
      as (Hempty & Hnone & _).
    split; [exact Hnone | split; [exact Hempty |]].
    intros id. unfold Incidents.tick.
    unfold Incidents.componentWillUnmount at 1. rewrite Hempty, lookup_empty.
    reflexivity.
  - pose proof (IntegrationsProofs.unmount_no_timers integrations Hint) as Hempty.
    split; [exact Hempty |].
    intros id. simpl. simpl in Hempty. rewrite Hempty, lookup_empty. reflexivity.
Qed.

(** C6 (where the code departs from it).  The Integrations page
    unmounts while the creation of an integration is under way and no
    timer is recorded: [componentWillUnmount] has nothing to clear and
    leaves the page as it is.  When the refresh after the creation then
    resolves, the rest of the callback of [create(...).then] runs on
    the unmounted page and, the new channel being a Grafana Alerting
    integration, starts the three-second interval, which nothing clears
    any more.  The channel is selected with the counter 200, so a
    firing of the interval calls [updateItem] for it, counts down to
    199 and leaves the interval active. *)
Theorem polling_started_after_unmount (p : Integrations.Page Tab ErrorData S)
    (channel : Integrations.AlertReceiveChannel ChannelData) :
  Integrations.alertReceiveChannelTimerId p = None →
  Integrations.display_name
    <$> Integrations.getIntegration channel (Integrations.alertReceiveChannelStore p)
  = Some "Grafana Alerting" →
  let unmounted := Integrations.componentWillUnmount p in
  let p' := Integrations.onCreated_resume channel unmounted in
  let timerId := JS.next (Integrations.timers p) in
  unmounted = p
  ∧ Integrations.alertReceiveChannelTimerId p' = Some timerId
  ∧ JS.active (Integrations.timers p') !! timerId = Some 3000%Z
  ∧ Integrations.selectedAlertReceiveChannel p' = Some (Integrations.id channel)
  ∧ Integrations.alertReceiveChanneltoPoll p' !! Integrations.id channel = Some 200%Z
  ∧ (let p'' := Integrations.handle (Integrations.TimerTick timerId) p' in
     Integrations.alertReceiveChannelStore p''
     = Integrations.updateItem (Some (Integrations.id channel))
         (Integrations.alertReceiveChannelStore p')
     ∧ Integrations.alertReceiveChanneltoPoll p'' !! Integrations.id channel = Some 199%Z
     ∧ JS.active (Integrations.timers p'') !! timerId = Some 3000%Z).
Proof.
  intros Hnone Hintegration unmounted p' timerId.
  assert (Hunmounted : unmounted = p).
  { subst unmounted. clear Hintegration p' timerId.
    destruct p as [st toPoll recorded selected store location timers].
    simpl in Hnone. subst recorded. reflexivity. }
  assert (Hp' : p' =
    Integrations.MkPage
      (Integrations.set_integrationSettingsTab (Some Integrations.HowToConnect)
         (Integrations.set_alertReceiveChannelToShowSettings
            (Some (Integrations.id channel)) (Integrations.state p)))
      (<[Integrations.id channel := 200%Z]> (Integrations.alertReceiveChanneltoPoll p))
      (Some timerId)
      (Some (Integrations.id channel))
      (Integrations.alertReceiveChannelStore p)
      (Integrations.location p
       ++ [Integrations.UpdateId (Some (Integrations.id channel))])%list
      (JS.MkTimers (<[timerId := 3000%Z]> (JS.active (Integrations.timers p)))
         (Pos.succ timerId))).
  { subst p'. rewrite Hunmounted. unfold Integrations.onCreated_resume. simpl.
    rewrite Hintegration. rewrite bool_decide_eq_true_2 by reflexivity.
    simpl. rewrite Hnone. reflexivity. }
  split; [exact Hunmounted |].
  rewrite Hp'. simpl.
  split; [reflexivity |].
  split; [apply lookup_insert_eq |].
  split; [reflexivity |].
  split; [apply lookup_insert_eq |].
  rewrite lookup_insert_eq. unfold Integrations.checkTimerTick. simpl.
  rewrite lookup_insert_eq. simpl.
  split; [reflexivity |].
  split; [apply lookup_insert_eq | apply lookup_insert_eq].
Qed.

(** The Incidents page records the last interval it started only.  If
    the table reports an empty selection while an interval is active,
    [handleSelectedIncidentIdsChange] starts another one without
    clearing the first; unmounting then clears the second, and the first
    keeps firing. *)
Remark unmount_clears_recorded_only (p : Incidents.Page F) (i : positive)
    (cb : Incidents.PollCallback) :
  JS.timers_wf (Incidents.timers p) →
  JS.active (Incidents.timers p) !! i = Some cb →
  let p' := Incidents.componentWillUnmount (Incidents.handleSelectedIncidentIdsChange [] p) in
  Incidents.pollingIntervalId p' = None
  ∧ JS.active (Incidents.timers p') !! i = Some cb
  ∧ Incidents.calls (Incidents.tick i p')
    = (Incidents.calls p'
       ++ [Incidents.updateIncidentFilters (Incidents.poll_filters cb)
             (Incidents.poll_isOnMount cb)])%list.
Proof.
  intros Hwf Hi p'.
  assert (Hne : i ≠ JS.next (Incidents.timers p)).
  { assert (Hlt : (i < JS.next (Incidents.timers p))%positive) by (apply Hwf; eauto).
    lia. }
  assert (Hactive : JS.active (Incidents.timers p') !! i = Some cb).
  { subst p'. simpl. rewrite lookup_delete_ne by congruence.
    rewrite lookup_insert_ne by congruence. exact Hi. }
  split; [reflexivity | split; [exact Hactive |]].
  unfold Incidents.tick. rewrite Hactive. reflexivity.
Qed.

End Proofs.

Import Samples.

Lemma polling_started_after_unmount_witness :
  let p' :=
    Integrations.onCreated_resume (channel "G")
      (Integrations.componentWillUnmount fresh_integrations) in
  Integrations.alertReceiveChannelTimerId p' = Some (JS.next (Integrations.timers fresh_integrations))
  ∧ JS.active (Integrations.timers p') !! JS.next (Integrations.timers fresh_integrations)
    = Some 3000%Z.
Proof.
  intros p'.
  assert (Hnone : Integrations.alertReceiveChannelTimerId fresh_integrations = None)
    by reflexivity.
  assert (Hintegration :
    Integrations.display_name
      <$> Integrations.getIntegration (channel "G")
            (Integrations.alertReceiveChannelStore fresh_integrations)
    = Some "Grafana Alerting") by reflexivity.
  destruct (polling_started_after_unmount fresh_integrations (channel "G")
              Hnone Hintegration) as (_ & Hid & Hactive & _).
  split; [exact Hid | exact Hactive].
Defined.

Lemma polling_cancelled_on_unmount_witness :
  JS.active (Incidents.timers (Incidents.componentWillUnmount mounted_incidents)) = ∅
  ∧ JS.active
      (Integrations.timers
         (Integrations.componentWillUnmount
            (Integrations.handle (Integrations.CreateChannel "G") fresh_integrations)))
    = ∅.
Proof.
  destruct (polling_cancelled_on_unmount mounted_incidents
              (Integrations.handle (Integrations.CreateChannel "G") fresh_integrations)
              IncidentsProofs.mounted_reachable
              (Integrations.reachable_handle _ (Integrations.CreateChannel "G")
                 (Integrations.reachable_initial (Some "A") [channel "A"; channel "B"])))
    as [(_ & Hinc & _) (Hint & _)].
  split; [exact Hinc | exact Hint].
Defined.

End UnmountProofs.

(* ===================================================================== *)
(** ** Further properties of the authorization module *)
(* ===================================================================== *)

Module AuthorizationExtras.
Import Authorization.

Lemma resource_action_inj (r r' : Resource) (a a' : Action) :
  Resource_value r +:+ ":" +:+ Action_value a
  = Resource_value r' +:+ ":" +:+ Action_value a' →
  r = r' ∧ a = a'.
Proof.
  destruct r, r'; simpl; intros Heq; try discriminate;
    (split; [reflexivity |]);
    destruct a, a'; simpl in Heq; try discriminate; reflexivity.
Qed.

(** X1.  A permission string determines what it was generated from: two
    calls of [generatePermissionString] return the same string only for
    the same resource, the same action and the same [includePrefix]. *)
Theorem generatePermissionString_inj (r r' : Resource) (a a' : Action) (b b' : bool) :
  generatePermissionString r a b = generatePermissionString r' a' b' →
  r = r' ∧ a = a' ∧ b = b'.
Proof.
  unfold generatePermissionString. destruct b, b'; intros Heq.
  - simpl in Heq. injection Heq as Heq.
    destruct (resource_action_inj r r' a a' Heq) as [-> ->]. repeat split.
  - exfalso. destruct r'; simpl in Heq; discriminate.
  - exfalso. destruct r; simpl in Heq; discriminate.
  - simpl in Heq.
    destruct (resource_action_inj r r' a a' Heq) as [-> ->]. repeat split.
Qed.

Lemma generatePermissionString_inj_witness :
  INTEGRATIONS = INTEGRATIONS ∧ TEST = TEST ∧ true = true.
Proof.
  apply (generatePermissionString_inj INTEGRATIONS INTEGRATIONS TEST TEST true true).
  reflexivity.
Defined.

(** X2.  The permission strings of the [UserActions] table tell its
    entries apart, with one exception: [SchedulesWrite] and
    [SchedulesExport] carry the same string. *)
Theorem UserActions_permissions_distinct (a b : Actions) :
  permission (UserActions a) = permission (UserActions b) →
  a = b
  ∨ (a = SchedulesWrite ∧ b = SchedulesExport)
  ∨ (a = SchedulesExport ∧ b = SchedulesWrite).
Proof.
  destruct a, b; intros Heq;
    first [ left; reflexivity
          | right; left; split; reflexivity
          | right; right; split; reflexivity
          | exfalso; vm_compute in Heq; discriminate ].
Qed.

Lemma UserActions_permissions_distinct_witness :
  SchedulesWrite = SchedulesExport
  ∨ (SchedulesWrite = SchedulesWrite ∧ SchedulesExport = SchedulesExport)
  ∨ (SchedulesWrite = SchedulesExport ∧ SchedulesExport = SchedulesWrite).
Proof.
  apply (UserActions_permissions_distinct SchedulesWrite SchedulesExport).
  reflexivity.
Defined.

(** X3.  A user who meets a role requirement meets every weaker one
    (what is open to Viewers is open to Editors' and Admins' requirements
    alike).  Hence, with the [accessControlOnCall] toggle off, an Admin is
    allowed every action of the table, a user with the empty role none,
    and in general an action is allowed exactly when the user's
    privilege reaches that of the fallback role. *)
Theorem role_fallback_order :
  (∀ (h : Host) (m m' : OrgRole),
      privilege (Some m') ≤ privilege (Some m) →
      userHasMinimumRequiredRole h m = true →
      userHasMinimumRequiredRole h m' = true)
  ∧ (∀ (h : Host) (a : Actions),
      accessControlOnCall h ≠ Some true →
      (isUserActionAllowed h (UserActions a) = true ↔
       privilege (Some (fallbackMinimumRoleRequired (UserActions a)))
       ≤ privilege (orgRole (user h))))
  ∧ (∀ (h : Host) (a : Actions),
      accessControlOnCall h ≠ Some true → orgRole (user h) = Some Admin →
      isUserActionAllowed h (UserActions a) = true)
  ∧ (∀ (h : Host) (a : Actions),
      accessControlOnCall h ≠ Some true → orgRole (user h) = None →
      isUserActionAllowed h (UserActions a) = false).
Proof.
  assert (Hoff : ∀ (h : Host) (ua : UserAction),
             accessControlOnCall h ≠ Some true →
             isUserActionAllowed h ua
             = userHasMinimumRequiredRole h (fallbackMinimumRoleRequired ua)).
  { intros h ua Hne. unfold isUserActionAllowed.
    destruct (accessControlOnCall h) as [[|]|]; try reflexivity. contradiction. }
  assert (Hrank : ∀ (h : Host) (m : OrgRole),
             userHasMinimumRequiredRole h m = true
             ↔ privilege (Some m) ≤ privilege (orgRole (user h))).
  { intros [[r p] t] m. unfold userHasMinimumRequiredRole. simpl.
    destruct r as [[| |]|], m; simpl; split; intros Hyp;
      try reflexivity; try discriminate; lia. }
  split; [| split; [| split]].
  - intros h m m' Hle Hm. apply Hrank. apply Hrank in Hm. lia.
  - intros h a Hne. rewrite (Hoff h _ Hne). apply Hrank.
  - intros h a Hne Hadmin. rewrite (Hoff h _ Hne). apply Hrank.
    rewrite Hadmin. destruct (fallbackMinimumRoleRequired (UserActions a)); simpl; lia.
  - intros h a Hne Hnone. rewrite (Hoff h _ Hne).
    destruct (userHasMinimumRequiredRole h _) eqn:E; [| reflexivity].
    apply Hrank in E. rewrite Hnone in E.
    destruct (fallbackMinimumRoleRequired (UserActions a)); simpl in E; lia.
Qed.

End AuthorizationExtras.

(* ===================================================================== *)
(** ** Properties of the Schedule page *)
(* ===================================================================== *)

Module ScheduleProofs.
Import Authorization Schedule.

Section Proofs.

Context {Moment : Type}.
Implicit Types s : SchedulePageState (Moment := Moment).

Lemma not_api_false (schedule : option ScheduleItem) :
  not_api schedule = false ↔ schedule_type <$> schedule = Some API.
Proof.
  unfold not_api. destruct (schedule_type <$> schedule) as [[| | |n]|];
    split; intros Hyp; try reflexivity; discriminate.
Qed.

(** X4.  The schedule's rotations and overrides are editable ([disabled]
    is falsy) exactly when the user is allowed [SchedulesWrite], the
    schedule is loaded and of type [API], and neither the rotation form
    nor the overrides form is open.  So they are read-only whenever the
    Reload button is shown (schedules of type Ical or Calendar), and
    [handleShowForm] on a shift of type 2 or 3 makes them read-only for
    everybody. *)
Theorem schedule_editable (host : Host) (schedule : option ScheduleItem) s :
  (truthy_value (disabled host schedule s) = false ↔
   isUserActionAllowed host (UserActions SchedulesWrite) = true
   ∧ schedule_type <$> schedule = Some API
   ∧ JS.truthy_ostring (shiftIdToShowRotationForm s) = false
   ∧ JS.truthy_ostring (shiftIdToShowOverridesForm s) = false)
  ∧ (reload_shown schedule = true → truthy_value (disabled host schedule s) = true)
  ∧ (∀ (shiftId : string) (shift_type : Z),
      JS.truthy_string shiftId = true →
      shift_type = 2%Z ∨ shift_type = 3%Z →
      truthy_value (disabled host schedule (handleShowForm shiftId shift_type s)) = true)
  ∧ (∀ (shiftId : string) (shift_type : Z),
      shift_type ≠ 2%Z → shift_type ≠ 3%Z → handleShowForm shiftId shift_type s = s).
Proof.
  assert (Hchar : ∀ s',
             truthy_value (disabled host schedule s') = false ↔
             isUserActionAllowed host (UserActions SchedulesWrite) = true
             ∧ schedule_type <$> schedule = Some API
             ∧ JS.truthy_ostring (shiftIdToShowRotationForm s') = false
             ∧ JS.truthy_ostring (shiftIdToShowOverridesForm s') = false).
  { intros s'. unfold disabled. rewrite <- not_api_false.
    destruct (isUserActionAllowed host (UserActions SchedulesWrite)); simpl.
    - destruct (not_api schedule); simpl.
      + split; [discriminate | intros (_ & Hn & _); discriminate].
      + destruct (JS.truthy_ostring (shiftIdToShowRotationForm s')) eqn:Erot; simpl.
        * rewrite Erot. split; [discriminate | intros (_ & _ & Hr & _); discriminate].
        * split; [intros Ho; repeat split; exact Ho | intros (_ & _ & _ & Ho); exact Ho].
    - split; [discriminate | intros (Ha & _); discriminate]. }
  split; [apply Hchar |]. split; [| split].
  - intros Hreload.
    destruct (truthy_value (disabled host schedule s)) eqn:E; [reflexivity |].
    apply Hchar in E. destruct E as (_ & Htype & _).
    unfold reload_shown in Hreload. rewrite Htype in Hreload. discriminate.
  - intros shiftId shift_type Hid Htype.
    destruct (truthy_value (disabled host schedule (handleShowForm shiftId shift_type s)))
      eqn:E; [reflexivity |].
    apply Hchar in E. destruct E as (_ & _ & Hrot & Hovr).
    unfold handleShowForm in Hrot, Hovr.
    destruct Htype as [-> | ->]; simpl in Hrot, Hovr; congruence.
  - intros shiftId shift_type Hrot Hovr. unfold handleShowForm.
    destruct (shift_type =? 2)%Z eqn:E2; [apply Z.eqb_eq in E2; contradiction |].
    destruct (shift_type =? 3)%Z eqn:E3; [apply Z.eqb_eq in E3; contradiction |].
    reflexivity.
Qed.

(** X5.  Who may edit a schedule.  With the [accessControlOnCall] toggle
    off only an Admin can (the fallback role of [SchedulesWrite]); with
    the toggle on, exactly the users whose permissions map has a truthy
    entry ["grafana-oncall-app.schedules:write"], whatever their role. *)
Theorem schedule_editors (host : Host) (schedule : option ScheduleItem) s :
  truthy_value (disabled host schedule s) = false →
  (accessControlOnCall host ≠ Some true → orgRole (user host) = Some Admin)
  ∧ (accessControlOnCall host = Some true →
     ∃ m : gmap string bool,
       permissions (user host) = Some m
       ∧ m !! "grafana-oncall-app.schedules:write" = Some true).
Proof.
  intros Hedit. unfold disabled in Hedit.
  destruct (isUserActionAllowed host (UserActions SchedulesWrite)) eqn:Hallowed;
    [| discriminate].
  clear Hedit. unfold isUserActionAllowed in Hallowed. split.
  - intros Hoff.
    destruct (accessControlOnCall host) as [[|]|]; try contradiction;
      simpl in Hallowed; unfold userHasMinimumRequiredRole in Hallowed;
      destruct (orgRole (user host)) as [[| |]|]; simpl in Hallowed;
      try discriminate; reflexivity.
  - intros Hon. rewrite Hon in Hallowed. simpl in Hallowed.
    unfold permission_truthy in Hallowed.
    destruct (permissions (user host)) as [m|]; [| discriminate].
    exists m. split; [reflexivity |].
    change "grafana-oncall-app.schedules:write"
      with (generatePermissionString SCHEDULES WRITE true).
    destruct (m !! generatePermissionString SCHEDULES WRITE true) as [[|]|];
      simpl in Hallowed; try discriminate; reflexivity.
Qed.

End Proofs.

Lemma schedule_editors_witness :
  orgRole (user (MkHost (MkContextUser (Some Admin) None) None)) = Some Admin.
Proof.
  destruct (schedule_editors (Moment := nat)
              (MkHost (MkContextUser (Some Admin) None) None)
              (Some (MkSchedule "S1" "Primary" API))
              (initial_state 0) eq_refl) as [Hoff _].
  apply Hoff. discriminate.
Defined.

End ScheduleProofs.

(* ===================================================================== *)
(** ** Further properties of the Incidents page *)
(* ===================================================================== *)

Module IncidentsExtras.
Import Incidents IncidentsRender.

Section Proofs.

Context {F : Type} `{StringCoercion} `{AlertGroupStoreMethods F}.
Implicit Types p : Page F.

(** *** Polling fetches with the current filters *)

Lemma handleFiltersChange_interval (f : F) (m : bool) p :
  timers_tracked p →
  JS.active (timers (handleFiltersChange f m p))
  = {[ JS.next (timers p) := MkPoll (Some f) m 15000 ]}.
Proof.
  intros Htr.
  destruct (IncidentsProofs.clearPollingInterval_empty p Htr) as (Hempty & _ & _).
  unfold handleFiltersChange, fetchIncidentData, setPollingInterval, JS.setInterval.
  destruct m; simpl; simpl in Hempty;
    destruct (pollingIntervalId p); simpl in *; rewrite Hempty; reflexivity.
Qed.

Lemma single_current_filters p i cb :
  JS.active (timers p) = {[ i := cb ]} →
  poll_filters cb = filters (state p) →
  polls_current_filters p.
Proof.
  intros Hact Hf k cb' Hk. rewrite Hact in Hk.
  destruct (decide (k = i)) as [->|Hne].
  - rewrite lookup_singleton_eq in Hk. congruence.
  - rewrite lookup_singleton_ne in Hk by congruence. discriminate.
Qed.

Lemma frame_current_filters p p' :
  timers p' = timers p → filters (state p') = filters (state p) →
  polls_current_filters p → polls_current_filters p'.
Proof. unfold polls_current_filters. intros -> ->. intros Hp. exact Hp. Qed.

Lemma handle_current_filters p (e : Event F) :
  polling_ok p → polls_current_filters p → enabled p e = true →
  polls_current_filters (handle e p).
Proof.
  intros [Htr Hnone] Hcur Hen.
  destruct e as [f m | c d | v | ids | i a | i v | i | a ev | | id]; simpl in *.
  - apply (single_current_filters _ _ _ (handleFiltersChange_interval f m p Htr)).
    unfold handleFiltersChange. destruct m; reflexivity.
  - apply (frame_current_filters p); [reflexivity | reflexivity | exact Hcur].
  - apply (frame_current_filters p); [reflexivity | reflexivity | exact Hcur].
  - unfold handleSelectedIncidentIdsChange. destruct (0 <? length ids) eqn:Eids.
    + destruct (IncidentsProofs.clearPollingInterval_empty p Htr) as (Hempty & _ & _).
      intros k cb Hk. simpl in Hk, Hempty. rewrite Hempty, lookup_empty in Hk.
      discriminate.
    + simpl in Hen.
      assert (Hempty : JS.active (timers (setState (set_selectedIncidentIds ids) p)) = ∅).
      { simpl. apply (IncidentsProofs.tracked_none_empty p Htr). apply Hnone. exact Hen. }
      destruct (IncidentsProofs.setPollingInterval_single None None _ Hempty)
        as (_ & Hact & _).
      apply (single_current_filters _ _ _ Hact). reflexivity.
  - apply (frame_current_filters p); [reflexivity | reflexivity | exact Hcur].
  - apply (frame_current_filters p); [reflexivity | reflexivity | exact Hcur].
  - apply (frame_current_filters p); [reflexivity | reflexivity | exact Hcur].
  - assert (Hempty : JS.active (timers p) = ∅).
    { apply (IncidentsProofs.tracked_none_empty p Htr). apply Hnone.
      unfold bulk_buttons_disabled in Hen. apply negb_true_iff in Hen.
      apply negb_false_iff in Hen. exact Hen. }
    destruct (IncidentsProofs.setPollingInterval_single None None p Hempty)
      as (_ & Hact & _).
    apply (single_current_filters _ _ _ Hact). reflexivity.
  - apply (frame_current_filters p); [reflexivity | reflexivity | exact Hcur].
  - unfold tick. destruct (JS.active (timers p) !! id); [| exact Hcur].
    apply (frame_current_filters p); [reflexivity | reflexivity | exact Hcur].
Qed.

Lemma reachable_current_filters p : reachable p → polls_current_filters p.
Proof.
  induction 1 as [query store0 | p e Hreach IH Hen].
  - intros i cb Hi. simpl in Hi. rewrite lookup_empty in Hi. discriminate.
  - apply handle_current_filters; [| exact IH | exact Hen].
    apply (IncidentsProofs.reachable_polling p Hreach).
Qed.

(** X6.  In every state the rendered page reaches, the active polling
    interval fetches with the filters currently in the state: a firing
    calls [updateIncidentFilters] once with these filters (and the
    [isOnMount] flag the interval was started with), and changes neither
    the component state nor the timers. *)
Theorem polling_uses_current_filters p (id : positive) (cb : PollCallback) :
  reachable p →
  JS.active (timers p) !! id = Some cb →
  poll_filters cb = filters (state p)
  ∧ calls (tick id p)
    = (calls p ++ [updateIncidentFilters (filters (state p)) (poll_isOnMount cb)])%list
  ∧ state (tick id p) = state p
  ∧ timers (tick id p) = timers p
  ∧ pollingIntervalId (tick id p) = pollingIntervalId p.
Proof.
  intros Hreach Hid. pose proof (reachable_current_filters p Hreach id cb Hid) as Hf.
  unfold tick. rewrite Hid. simpl. rewrite Hf. repeat split.
Qed.

(** *** Paging forth and back *)

Lemma shift_back (x n : float) (d d' : Direction) :
  d ≠ d' →
  exact_shift x n d = true →
  exact_shift (x + n * direction_sign d) n d' = true →
  number_value (x + n * direction_sign d + n * direction_sign d') = number_value x.
Proof.
  unfold exact_shift. intros Hd.
  destruct (number_value x) as [a |]; [| discriminate].
  destruct (number_value n) as [b |]; [| discriminate].
  destruct (number_value (x + n * direction_sign d)) as [c |]; [| discriminate].
  destruct (number_value (x + n * direction_sign d + n * direction_sign d')) as [e |];
    [| discriminate].
  intros Hc He. apply Z.eqb_eq in Hc, He. f_equal.
  destruct d, d'; try contradiction; cbn [direction_step] in *; lia.
Qed.

(** X7.  In a store where only [setIncidentsItemsPerPage] changes the
    page size, going to the next page and back, or to the previous page
    and forth, restores the values of both bounds of the pagination
    window, provided none of the four sums of doubles computed on the
    way was rounded; the selection is empty afterwards. *)
Theorem cursor_round_trip (c1 c2 : string) (d d' : Direction) p :
  keeps_page_size →
  d ≠ d' →
  let n := incidentsItemsPerPage (store p) in
  let pg := pagination (state p) in
  let pg' := pagination (state (onChangeCursor c2 d' (onChangeCursor c1 d p))) in
  exact_shift (start pg) n d = true →
  exact_shift (start pg + n * direction_sign d) n d' = true →
  exact_shift (end_ pg) n d = true →
  exact_shift (end_ pg + n * direction_sign d) n d' = true →
  number_value (start pg') = number_value (start pg)
  ∧ number_value (end_ pg') = number_value (end_ pg)
  ∧ selectedIncidentIds (state (onChangeCursor c2 d' (onChangeCursor c1 d p))) = [].
Proof.
  intros Hkeep Hd n pg pg' Hs Hs' He He'.
  assert (Hpg : pg' = MkPagination
                        (start pg + n * direction_sign d + n * direction_sign d')
                        (end_ pg + n * direction_sign d + n * direction_sign d')).
  { subst pg' pg n. simpl. rewrite !Hkeep by discriminate. reflexivity. }
  rewrite Hpg. cbn [start end_].
  split; [apply shift_back; assumption |].
  split; [apply shift_back; assumption | reflexivity].
Qed.

(** *** The out-of-date notice and the bulk controls *)

Lemma mark_affected_nonempty (ids : list string) (rows : gmap string bool) :
  ids ≠ [] → (0 <? size (mark_affected ids rows)) = true.
Proof.
  intros Hids. destruct ids as [| i ids]; [contradiction |].
  apply Nat.ltb_lt.
  destruct (size (mark_affected (i :: ids) rows)) eqn:Esize; [| lia].
  apply map_size_empty_iff in Esize.
  pose proof (IncidentsProofs.mark_affected_lookup (i :: ids) rows i) as Hi.
  rewrite decide_True in Hi by left.
  rewrite Esize, lookup_empty in Hi. discriminate.
Qed.

(** X8.  The "Results out of date" notice.  After a bulk action over a
    non-empty selection the notice is shown whatever the results are;
    after the Refresh click ([onIncidentsUpdateClick]) it is shown exactly
    when some result carries an [undoAction]; and on a freshly constructed
    page with no such result it is not shown. *)
Theorem out_of_date_notice (results : option (list Alert)) p :
  (∀ (action : BulkActionName) (event : ClickArg),
      selectedIncidentIds (state p) ≠ [] →
      hasInvalidatedAlert results (getBulkActionClickHandler action event p) = true)
  ∧ hasInvalidatedAlert results (onIncidentsUpdateClick p)
    = match results with
      | Some l => existsb undoAction l
      | None => false
      end
  ∧ (∀ (query : Query) (store0 : AlertGroupStore F),
      hasInvalidatedAlert results (constructor query store0)
      = match results with
        | Some l => existsb undoAction l
        | None => false
        end).
Proof.
  split; [| split].
  - intros action event Hsel. unfold hasInvalidatedAlert. simpl.
    rewrite (mark_affected_nonempty _ _ Hsel). apply orb_true_r.
  - unfold hasInvalidatedAlert. simpl. rewrite map_size_empty. simpl.
    apply orb_false_r.
  - intros query store0. unfold hasInvalidatedAlert. simpl.
    rewrite map_size_empty. simpl. apply orb_false_r.
Qed.

Lemma controls_disabled (keys : gset string) (results : option (list Alert))
    (loading : bool) p (v : BulkActionsView) (c : BulkControl) :
  renderBulkActions (Some keys) results loading p = Some v →
  c ∈ controls v →
  control_disabled c = negb (hasSelected p).
Proof.
  unfold renderBulkActions. intros [= <-]. simpl. intros Hin.
  repeat (apply elem_of_app in Hin; destruct Hin as [Hin | Hin]);
    destruct (bool_decide _); try (apply elem_of_nil in Hin; contradiction);
    apply list_elem_of_singleton in Hin; subst c; reflexivity.
Qed.

(** X9.  The bulk controls.  Nothing is rendered until the store's
    [bulkActions] are loaded; then at most four controls are rendered and
    each of them is disabled exactly when no row is selected.  A filter
    change, a page change, a page-size change and a bulk action all leave
    the page with every rendered control disabled. *)
Theorem bulk_controls (keys : gset string) (results : option (list Alert))
    (loading : bool) p :
  renderBulkActions None results loading p = None
  ∧ (∃ v, renderBulkActions (Some keys) results loading p = Some v
          ∧ length (controls v) ≤ 4
          ∧ (∀ c, c ∈ controls v →
                  (control_disabled c = true ↔ selectedIncidentIds (state p) = [])))
  ∧ (∀ (e : Event F) v c,
      (match e with
       | FiltersChange _ _ | ChangeCursor _ _ | ChangeItemsPerPage _
       | BulkActionClick _ _ => True
       | _ => False
       end) →
      renderBulkActions (Some keys) results loading (handle e p) = Some v →
      c ∈ controls v → control_disabled c = true).
Proof.
  split; [reflexivity |]. split.
  - eexists. split; [reflexivity |]. split.
    + simpl. rewrite !length_app.
      repeat (destruct (bool_decide _)); simpl; lia.
    + intros c Hin.
      rewrite (controls_disabled keys results loading p _ c eq_refl Hin).
      unfold hasSelected. destruct (selectedIncidentIds (state p)); simpl;
        split; intros Hyp; try reflexivity; discriminate.
  - intros e v c He Hv Hin.
    rewrite (controls_disabled keys results loading _ v c Hv Hin).
    destruct e as [f m | cu d | n | ids | i a | i n | i | a ev | | id];
      try contradiction; try reflexivity.
    simpl. destruct m; reflexivity.
Qed.

End Proofs.

Import Samples.

Lemma polling_uses_current_filters_witness :
  calls (tick 1%positive mounted_incidents)
  = (calls mounted_incidents ++ [updateIncidentFilters (Some "status=new") true])%list.
Proof.
  assert (Hactive : JS.active (timers mounted_incidents) !! 1%positive
                    = Some (MkPoll (Some "status=new") true 15000))
    by (vm_compute; reflexivity).
  destruct (polling_uses_current_filters mounted_incidents 1%positive _
              IncidentsProofs.mounted_reachable Hactive) as (_ & Hcalls & _).
  exact Hcalls.
Defined.

Lemma cursor_round_trip_witness :
  number_value
    (start (pagination
              (state (onChangeCursor "c1" prev (onChangeCursor "c2" next mounted_incidents)))))
  = Some (whole 1).
Proof.
  assert (Hd : next ≠ prev) by discriminate.
  assert (Hexact : exact_shift 1 25 next = true
                   ∧ exact_shift (1 + 25 * direction_sign next) 25 prev = true
                   ∧ exact_shift 25 25 next = true
                   ∧ exact_shift (25 + 25 * direction_sign next) 25 prev = true)
    by (vm_compute; repeat split).
  destruct Hexact as (Hs & Hs' & He & He').
  destruct (cursor_round_trip "c2" "c1" next prev mounted_incidents
              IncidentsProofs.plain_store_keeps_page_size Hd Hs Hs' He He') as (Hback & _).
  rewrite Hback. vm_compute. reflexivity.
Defined.

End IncidentsExtras.

(* ===================================================================== *)
(** ** Further properties of the Integrations page *)
(* ===================================================================== *)

Module IntegrationsExtras.
Import Integrations IntegrationsRuns.

Section Proofs.

Context {ChannelData Tab ErrorData Error OptionValue S : Type}.
Context `{PageHelpers Tab ErrorData Error}.
Context `{AlertReceiveChannelStore ChannelData Error OptionValue S}.
Implicit Types p : Page Tab ErrorData S.

(** *** The timer *)

Lemma handle_timer_frame p (e : Event ChannelData Tab OptionValue) :
  (∀ v, e ≠ CreateChannel v) →
  (∀ c, e ≠ RefreshResolved c) →
  timers (handle e p) = timers p
  ∧ alertReceiveChannelTimerId (handle e p) = alertReceiveChannelTimerId p.
Proof.
  intros Hne Hne'. destruct e; simpl; try (split; reflexivity).
  - destruct (IntegrationsProofs.componentDidMount_frame query p) as (_ & Hid & Ht).
    split; assumption.
  - destruct (IntegrationsProofs.parseQueryParams_frame query p) as (_ & Hid & Ht).
    split; assumption.
  - destruct (Hne option_value). reflexivity.
  - unfold handleDeleteAlertReceiveChannel. branch; split; reflexivity.
  - unfold applyFilters. branch; split; reflexivity.
  - destruct (JS.active (timers p) !! timerId); [| split; reflexivity].
    unfold checkTimerTick. branch; split; reflexivity.
  - destruct (Hne' alertReceiveChannel). reflexivity.
Qed.

(** The recorded timer runs, every three seconds. *)
Lemma handle_timer_running p (e : Event ChannelData Tab OptionValue) :
  timer_ok p →
  (∀ i, alertReceiveChannelTimerId p = Some i → JS.active (timers p) !! i = Some 3000%Z) →
  (∀ i, alertReceiveChannelTimerId (handle e p) = Some i →
        JS.active (timers (handle e p)) !! i = Some 3000%Z)
  ∧ (∀ i, alertReceiveChannelTimerId p = Some i →
          alertReceiveChannelTimerId (handle e p) = Some i).
Proof.
  intros Hok Hrun.
  assert (Hframe : timers (handle e p) = timers p
                   ∧ alertReceiveChannelTimerId (handle e p) = alertReceiveChannelTimerId p →
                   (∀ i, alertReceiveChannelTimerId (handle e p) = Some i →
                         JS.active (timers (handle e p)) !! i = Some 3000%Z)
                   ∧ (∀ i, alertReceiveChannelTimerId p = Some i →
                           alertReceiveChannelTimerId (handle e p) = Some i)).
  { intros [-> ->]. split; [exact Hrun | intros i Hi; exact Hi]. }
  destruct e; try (apply Hframe; apply handle_timer_frame; discriminate).
  - simpl. unfold handleCreateNewAlertReceiveChannel.
    destruct (create option_value (alertReceiveChannelStore p)) as [s1 [c|]];
      [| split; [exact Hrun | intros i Hi; exact Hi]].
    unfold onCreated, onCreated_resume.
    destruct (updateItems None (alertReceiveChannelStore (set_store s1 p))) as [s2 ok].
    destruct ok; [| split; [exact Hrun | intros i Hi; exact Hi]]. simpl.
    destruct (bool_decide _); [| split; [exact Hrun | intros i Hi; exact Hi]]. simpl.
    destruct (alertReceiveChannelTimerId p) as [t|] eqn:Et.
    + simpl. rewrite Et. split; [exact Hrun | intros i Hi; exact Hi].
    + simpl. split; [| discriminate].
      intros i [= <-]. apply lookup_insert_eq.
  - simpl. unfold onCreated_resume. simpl.
    destruct (bool_decide _); [| split; [exact Hrun | intros i Hi; exact Hi]]. simpl.
    destruct (alertReceiveChannelTimerId p) as [t|] eqn:Et.
    + simpl. rewrite Et. split; [exact Hrun | intros i Hi; exact Hi].
    + simpl. split; [| discriminate].
      intros i [= <-]. apply lookup_insert_eq.
Qed.

Lemma reachable_timer_running p :
  reachable p →
  ∀ i, alertReceiveChannelTimerId p = Some i → JS.active (timers p) !! i = Some 3000%Z.
Proof.
  induction 1 as [selected s | p e Hreach IH].
  - simpl. discriminate.
  - apply handle_timer_running; [| exact IH].
    apply IntegrationsProofs.reachable_timer_ok. exact Hreach.
Qed.

(** X10.  In every state the page goes through at most one timer is
    active; it is the one recorded in [alertReceiveChannelTimerId], it
    fires every 3000 ms, and once it is recorded no later event replaces
    or clears it. *)
Theorem single_timer p :
  reachable p →
  size (JS.active (timers p)) ≤ 1
  ∧ (∀ i ms, JS.active (timers p) !! i = Some ms →
             ms = 3000%Z ∧ alertReceiveChannelTimerId p = Some i)
  ∧ (∀ i, alertReceiveChannelTimerId p = Some i →
          JS.active (timers p) !! i = Some 3000%Z
          ∧ ∀ e : Event ChannelData Tab OptionValue,
              alertReceiveChannelTimerId (handle e p) = Some i
              ∧ JS.active (timers (handle e p)) !! i = Some 3000%Z).
Proof.
  intros Hreach.
  pose proof (IntegrationsProofs.reachable_timer_ok p Hreach) as Hok.
  pose proof (reachable_timer_running p Hreach) as Hrun.
  assert (Hrecorded : ∀ i ms, JS.active (timers p) !! i = Some ms →
                              ms = 3000%Z ∧ alertReceiveChannelTimerId p = Some i).
  { intros i ms Hi. destruct Hok as [Hone _].
    assert (Hid : alertReceiveChannelTimerId p = Some i) by (apply Hone; eauto).
    split; [| exact Hid]. apply Hrun in Hid. congruence. }
  split; [| split; [exact Hrecorded |]].
  - destruct (alertReceiveChannelTimerId p) as [t|] eqn:Et.
    + apply (IncidentsProofs.at_most_one_key _ t). intros k [ms Hk].
      apply Hrecorded in Hk. destruct Hk as [_ Hk]. congruence.
    + rewrite (IntegrationsProofs.timer_none_empty p Hok Et), map_size_empty. lia.
  - intros i Hi. split; [apply Hrun; exact Hi |]. intros e.
    destruct (handle_timer_running p e Hok Hrun) as [Hrun' Hkeep].
    split; [apply Hkeep; exact Hi | apply Hrun'; apply Hkeep; exact Hi].
Qed.

(** *** The polling budget *)

Lemma ticks_S (n : nat) p : ticks (Datatypes.S n) p = checkTimerTick (ticks n p).
Proof. reflexivity. Qed.

Lemma checkTimerTick_selected p :
  selectedAlertReceiveChannel (checkTimerTick p) = selectedAlertReceiveChannel p.
Proof. unfold checkTimerTick. branch; reflexivity. Qed.

Lemma ticks_selected (n : nat) p :
  selectedAlertReceiveChannel (ticks n p) = selectedAlertReceiveChannel p.
Proof.
  induction n as [| n IH]; [reflexivity |].
  rewrite ticks_S, checkTimerTick_selected. exact IH.
Qed.

Lemma ticks_budget (n : nat) p (v : Z) :
  (0 ≤ v)%Z →
  alertReceiveChanneltoPoll p !! JS.prop_key (selectedAlertReceiveChannel p) = Some v →
  (n ≤ Z.to_nat v →
   alertReceiveChanneltoPoll (ticks n p) !! JS.prop_key (selectedAlertReceiveChannel p)
   = Some (v - Z.of_nat n)%Z
   ∧ alertReceiveChannelStore (ticks n p)
     = updates n (selectedAlertReceiveChannel p) (alertReceiveChannelStore p))
  ∧ (Z.to_nat v < n →
     alertReceiveChanneltoPoll (ticks n p) !! JS.prop_key (selectedAlertReceiveChannel p)
     = None
     ∧ alertReceiveChannelStore (ticks n p)
       = updates (Z.to_nat v) (selectedAlertReceiveChannel p) (alertReceiveChannelStore p)).
Proof.
  intros Hv Hentry. induction n as [| n IH].
  - split; [| lia]. intros _. simpl. rewrite Z.sub_0_r. split; [exact Hentry | reflexivity].
  - destruct IH as [IHle IHgt]. rewrite ticks_S.
    pose proof (ticks_selected n p) as Hsel.
    unfold checkTimerTick. rewrite Hsel.
    destruct (decide (n ≤ Z.to_nat v)) as [Hle | Hgt].
    + destruct (IHle Hle) as [Hcounter Hstore]. rewrite Hcounter.
      split.
      * intros Hn.
        assert (Hpos : (v - Z.of_nat n >? 0)%Z = true) by (apply Z.gtb_lt; lia).
        rewrite Hpos. simpl. rewrite lookup_insert_eq, Hstore.
        split; [f_equal; lia | reflexivity].
      * intros Hn. assert (Heq : n = Z.to_nat v) by lia.
        assert (Hzero : (v - Z.of_nat n >? 0)%Z = false).
        { rewrite Z.gtb_ltb. apply Z.ltb_ge. lia. }
        rewrite Hzero. simpl. rewrite lookup_delete_eq, Hstore, Heq.
        split; reflexivity.
    + destruct (IHgt ltac:(lia)) as [Hcounter Hstore]. rewrite Hcounter.
      split; [lia |]. intros _. split; [exact Hcounter | exact Hstore].
Qed.

(** X11.  The polling budget of a channel.  In every state the page goes
    through, a counter [v] of the selected channel lies between 0 and 200,
    and consecutive timer firings spend it: the first [v] firings call
    [updateItem] once each and count down, the next one removes the entry
    without calling the store, and further firings do nothing.  So a
    created integration is refreshed at most 200 times. *)
Theorem polling_budget p (v : Z) (n : nat) :
  reachable p →
  alertReceiveChanneltoPoll p !! JS.prop_key (selectedAlertReceiveChannel p) = Some v →
  (0 ≤ v ≤ 200)%Z
  ∧ (n ≤ Z.to_nat v →
     alertReceiveChanneltoPoll (ticks n p) !! JS.prop_key (selectedAlertReceiveChannel p)
     = Some (v - Z.of_nat n)%Z
     ∧ alertReceiveChannelStore (ticks n p)
       = updates n (selectedAlertReceiveChannel p) (alertReceiveChannelStore p))
  ∧ (Z.to_nat v < n →
     alertReceiveChanneltoPoll (ticks n p) !! JS.prop_key (selectedAlertReceiveChannel p)
     = None
     ∧ alertReceiveChannelStore (ticks n p)
       = updates (Z.to_nat v) (selectedAlertReceiveChannel p) (alertReceiveChannelStore p)).
Proof.
  intros Hreach Hentry.
  pose proof (IntegrationsProofs.reachable_counters_ok p Hreach _ _ Hentry) as Hrange.
  split; [exact Hrange |].
  apply ticks_budget; [lia | exact Hentry].
Qed.

(** *** Parsing the query *)


(** X13.  Without a (non-empty) [query.id], [parseQueryParams] keeps a
    non-empty selection; with nothing selected it selects the first
    channel of the search result ([undefined] for an empty result); and
    with nothing selected and the search result not loaded yet it throws,
    having only reset [errorData].  Whenever it returns, the selection is
    written to the location. *)
Theorem parseQueryParams_without_id (query : Query Tab) p :
  JS.truthy_ostring (query_id query) = false →
  (JS.truthy_ostring (selectedAlertReceiveChannel p) = true →
   ∃ p', parseQueryParams query p = Returned p'
         ∧ selectedAlertReceiveChannel p' = selectedAlertReceiveChannel p
         ∧ location p'
           = (location p ++ [UpdateId (selectedAlertReceiveChannel p)])%list)
  ∧ (JS.truthy_ostring (selectedAlertReceiveChannel p) = false →
     ∀ searchResult,
       getSearchResult (alertReceiveChannelStore p) = Some searchResult →
       ∃ p', parseQueryParams query p = Returned p'
             ∧ selectedAlertReceiveChannel p' = first_id searchResult
             ∧ location p' = (location p ++ [UpdateId (first_id searchResult)])%list)
  ∧ (JS.truthy_ostring (selectedAlertReceiveChannel p) = false →
     getSearchResult (alertReceiveChannelStore p) = None →
     parseQueryParams query p = Threw (setState (set_errorData initErrorDataState) p)).
Proof.
  intros Hid. unfold parseQueryParams, parseQueryParams_select. rewrite Hid. simpl.
  split; [| split].
  - intros Hsel. rewrite Hsel. simpl. eexists. repeat split.
  - intros Hsel searchResult Hresult. rewrite Hsel, Hresult. simpl.
    eexists. repeat split.
  - intros Hsel Hresult. rewrite Hsel, Hresult. reflexivity.
Qed.


(** *** Deleting a channel *)

Lemma toPoll_truthy_false (m : gmap string Z) (k : string) :
  toPoll_truthy m k = false → m !! k = None ∨ m !! k = Some 0%Z.
Proof.
  unfold toPoll_truthy, JS.truthy_number. destruct (m !! k) as [c|]; [| left; reflexivity].
  intros Hc. right. apply negb_false_iff, Z.eqb_eq in Hc. rewrite Hc. reflexivity.
Qed.

(** [handleDeleteAlertReceiveChannel], branch by branch. *)
Lemma handleDelete_shape (i : string) p :
  handleDeleteAlertReceiveChannel i p
  = let m' :=
      if toPoll_truthy (alertReceiveChanneltoPoll p) i
      then delete i (alertReceiveChanneltoPoll p)
      else alertReceiveChanneltoPoll p in
    let '(s1, deleted) := deleteAlertReceiveChannel i (alertReceiveChannelStore p) in
    if deleted
    then
      let '(s2, ok) := updateItems None s1 in
      if ok && bool_decide (Some i = selectedAlertReceiveChannel p)
      then setSelectedAlertReceiveChannel (getSearchResult s2 ≫= first_id)
             (set_store s2 (set_toPoll m' p))
      else set_store s2 (set_toPoll m' p)
    else set_store s1 (set_toPoll m' p).
Proof.
  unfold handleDeleteAlertReceiveChannel.
  destruct (toPoll_truthy (alertReceiveChanneltoPoll p) i); simpl;
    destruct (deleteAlertReceiveChannel i (alertReceiveChannelStore p)) as [s1 [|]];
    simpl; try reflexivity;
    destruct (updateItems None s1) as [s2 [|]]; simpl; try reflexivity;
    destruct (bool_decide (Some i = selectedAlertReceiveChannel p)); reflexivity.
Qed.

Lemma handleDelete_toPoll (i : string) p :
  alertReceiveChanneltoPoll (handleDeleteAlertReceiveChannel i p)
  = if toPoll_truthy (alertReceiveChanneltoPoll p) i
    then delete i (alertReceiveChanneltoPoll p)
    else alertReceiveChanneltoPoll p.
Proof. rewrite handleDelete_shape. branch; reflexivity. Qed.

(** X15.  Deleting a channel.  Its poll counter is dropped (afterwards the
    entry is absent, or a leftover [0]); the counters of the other
    channels, the component state and the timer are untouched.  The
    selection and the location change only when the deleted channel is
    the selected one and both the deletion and the refresh resolve: then
    the first channel of the refreshed search result is selected
    ([undefined] when there is none) and written to the location. *)
Theorem handleDeleteAlertReceiveChannel_effect (i : string) p :
  let p' := handleDeleteAlertReceiveChannel i p in
  (alertReceiveChanneltoPoll p' !! i = None ∨ alertReceiveChanneltoPoll p' !! i = Some 0%Z)
  ∧ (∀ k, k ≠ i → alertReceiveChanneltoPoll p' !! k = alertReceiveChanneltoPoll p !! k)
  ∧ state p' = state p
  ∧ timers p' = timers p
  ∧ alertReceiveChannelTimerId p' = alertReceiveChannelTimerId p
  ∧ (Some i ≠ selectedAlertReceiveChannel p →
     selectedAlertReceiveChannel p' = selectedAlertReceiveChannel p
     ∧ location p' = location p)
  ∧ (∀ s1 s2,
      deleteAlertReceiveChannel i (alertReceiveChannelStore p) = (s1, true) →
      updateItems None s1 = (s2, true) →
      Some i = selectedAlertReceiveChannel p →
      selectedAlertReceiveChannel p' = getSearchResult s2 ≫= first_id
      ∧ location p' = (location p ++ [UpdateId (getSearchResult s2 ≫= first_id)])%list)
  ∧ (∀ s1 s2,
      deleteAlertReceiveChannel i (alertReceiveChannelStore p) = (s1, false)
      ∨ (deleteAlertReceiveChannel i (alertReceiveChannelStore p) = (s1, true)
         ∧ updateItems None s1 = (s2, false)) →
      selectedAlertReceiveChannel p' = selectedAlertReceiveChannel p
      ∧ location p' = location p).
Proof.
  intros p'. subst p'. split; [| split].
  - rewrite handleDelete_toPoll.
    destruct (toPoll_truthy (alertReceiveChanneltoPoll p) i) eqn:E.
    + left. apply lookup_delete_eq.
    + apply toPoll_truthy_false. exact E.
  - intros k Hk. rewrite handleDelete_toPoll.
    destruct (toPoll_truthy (alertReceiveChanneltoPoll p) i); [| reflexivity].
    apply lookup_delete_ne. congruence.
  - rewrite handleDelete_shape. cbv zeta.
    destruct (deleteAlertReceiveChannel i (alertReceiveChannelStore p))
      as [s1 [|]] eqn:Hdelete.
    + destruct (updateItems None s1) as [s2 [|]] eqn:Hupdate.
      * destruct (bool_decide (Some i = selectedAlertReceiveChannel p)) eqn:Esel; simpl.
        -- apply bool_decide_eq_true in Esel.
           split; [reflexivity |]. split; [reflexivity |]. split; [reflexivity |].
           split; [intros Hne; contradiction |]. split.
           ++ intros s1' s2' [= <-] Hupdate' _.
              assert (s2' = s2) as -> by congruence. split; reflexivity.
           ++ intros s1' s2' [Hd | [Hd Hu]]; [discriminate |].
              injection Hd as <-. congruence.
        -- apply bool_decide_eq_false in Esel.
           split; [reflexivity |]. split; [reflexivity |]. split; [reflexivity |].
           split; [intros _; split; reflexivity |]. split.
           ++ intros s1' s2' _ _ Hyes. contradiction.
           ++ intros s1' s2' _. split; reflexivity.
      * simpl.
        split; [reflexivity |]. split; [reflexivity |]. split; [reflexivity |].
        split; [intros _; split; reflexivity |]. split.
        -- intros s1' s2' [= <-] Hupdate' _. congruence.
        -- intros s1' s2' _. split; reflexivity.
    + simpl.
      split; [reflexivity |]. split; [reflexivity |]. split; [reflexivity |].
      split; [intros _; split; reflexivity |]. split.
      * intros s1' s2' Hd. discriminate.
      * intros s1' s2' _. split; reflexivity.
Qed.

(** *** Applying the filters twice; the location *)

Lemma find_selected_head (c : AlertReceiveChannel ChannelData)
    (rest : list (AlertReceiveChannel ChannelData)) :
  find_selected (c :: rest) (Some (id c)) = Some c.
Proof. unfold find_selected. simpl. rewrite bool_decide_eq_true_2; reflexivity. Qed.

(** X16.  Applying the filters is idempotent.  When the refresh resolves
    with a defined search result and a second refresh with the same term
    would leave the store as it is, applying the filters again changes
    nothing.  Applying the filters never touches the component state, the
    location, the poll counters or the timer. *)
Theorem applyFilters_idempotent p (s1 : S)
    (searchResult : list (AlertReceiveChannel ChannelData)) :
  updateItems (Some (searchTerm (integrationsFilters (state p))))
    (alertReceiveChannelStore p) = (s1, true) →
  getSearchResult s1 = Some searchResult →
  updateItems (Some (searchTerm (integrationsFilters (state p)))) s1 = (s1, true) →
  ∃ p1,
    applyFilters p = Returned p1
    ∧ applyFilters p1 = Returned p1
    ∧ state p1 = state p
    ∧ location p1 = location p
    ∧ alertReceiveChanneltoPoll p1 = alertReceiveChanneltoPoll p
    ∧ alertReceiveChannelTimerId p1 = alertReceiveChannelTimerId p
    ∧ timers p1 = timers p.
Proof.
  intros Hupdate Hresult Hstable. unfold applyFilters at 1.
  rewrite Hupdate. simpl. rewrite Hresult.
  destruct (find_selected searchResult (selectedAlertReceiveChannel p)) as [c|] eqn:Efind.
  - eexists. split; [reflexivity |]. split; [| repeat split].
    unfold applyFilters. simpl. rewrite Hstable. simpl. rewrite Hresult, Efind.
    reflexivity.
  - eexists. split; [reflexivity |]. split; [| repeat split].
    unfold applyFilters. simpl. rewrite Hstable. simpl. rewrite Hresult.
    destruct searchResult as [| c rest].
    + reflexivity.
    + change (set_selected _ _) with
        (set_selected (Some (id c)) (set_store s1 p)).
      change (selectedAlertReceiveChannel (set_selected (Some (id c)) (set_store s1 p)))
        with (Some (id c)).
      rewrite find_selected_head. reflexivity.
Qed.

Lemma last_location_snoc p (l : list (LocationUpdate (IntegrationSettingsTab := Tab)))
    (i : option string) :
  location p = (l ++ [UpdateId i])%list → last_location_id p = Some i.
Proof. unfold last_location_id. intros ->. rewrite last_snoc. reflexivity. Qed.

(** X17.  The location follows the selection, except through the filters.
    Whenever an event other than the debounced filter application changes
    the selected channel, the last location update carries the new
    selection; the debounced filter application may change the selection
    but never writes the location. *)
Theorem location_follows_selection p (e : Event ChannelData Tab OptionValue) :
  (e ≠ DebounceFired →
   selectedAlertReceiveChannel (handle e p) ≠ selectedAlertReceiveChannel p →
   last_location_id (handle e p) = Some (selectedAlertReceiveChannel (handle e p)))
  ∧ location (handle DebounceFired p) = location p.
Proof.
  split.
  - intros Hne. destruct e; simpl; try (intros Hchanged; contradiction).
    + unfold componentDidMount, update.
      destruct (updateItems None (alertReceiveChannelStore p)) as [s' ok].
      destruct ok; [| intros Hchanged; contradiction].
      unfold parseQueryParams, parseQueryParams_select.
      branch; intros Hchanged; try contradiction;
        eapply last_location_snoc; reflexivity.
    + unfold parseQueryParams, parseQueryParams_select.
      branch; intros Hchanged; try contradiction;
        eapply last_location_snoc; reflexivity.
    + unfold handleCreateNewAlertReceiveChannel, onCreated, onCreated_resume.
      branch; intros Hchanged; try contradiction;
        eapply last_location_snoc; reflexivity.
    + unfold handleDeleteAlertReceiveChannel.
      branch; intros Hchanged; try contradiction;
        eapply last_location_snoc; reflexivity.
    + intros _. eapply last_location_snoc. reflexivity.
    + destruct (JS.active (timers p) !! timerId); [| intros Hchanged; contradiction].
      rewrite checkTimerTick_selected. intros Hchanged. contradiction.
    + unfold onCreated_resume.
      branch; intros Hchanged; try contradiction;
        eapply last_location_snoc; reflexivity.
  - simpl. unfold applyFilters. branch; reflexivity.
Qed.

(** *** Creating a Grafana Alerting integration *)

(** X18.  When the creation and the refresh after it resolve and the new
    channel is a Grafana Alerting integration, the channel is selected,
    its settings open on the how-to-connect tab, its poll counter is 200
    (the other counters are unchanged), and a timer with a period of
    three seconds is running. *)
Theorem created_grafana_alerting p (option_value : OptionValue) (s1 s2 : S)
    (channel : AlertReceiveChannel ChannelData) :
  reachable p →
  create option_value (alertReceiveChannelStore p) = (s1, Some channel) →
  updateItems None s1 = (s2, true) →
  display_name <$> getIntegration channel s2 = Some "Grafana Alerting" →
  let p' := handleCreateNewAlertReceiveChannel option_value p in
  selectedAlertReceiveChannel p' = Some (id channel)
  ∧ alertReceiveChannelToShowSettings (state p') = Some (id channel)
  ∧ integrationSettingsTab (state p') = Some HowToConnect
  ∧ alertReceiveChanneltoPoll p' !! id channel = Some 200%Z
  ∧ (∀ k, k ≠ id channel →
          alertReceiveChanneltoPoll p' !! k = alertReceiveChanneltoPoll p !! k)
  ∧ ∃ timerId, alertReceiveChannelTimerId p' = Some timerId
               ∧ JS.active (timers p') !! timerId = Some 3000%Z.
Proof.
  intros Hreach Hcreate Hupdate Hintegration p'.
  assert (Hreach' : reachable p').
  { exact (reachable_handle p (CreateChannel option_value) Hreach). }
  pose proof (reachable_timer_running p' Hreach') as Hrun.
  subst p'. unfold handleCreateNewAlertReceiveChannel, onCreated, onCreated_resume in *.
  rewrite Hcreate in *. simpl in *. rewrite Hupdate in *. simpl in *.
  rewrite Hintegration in *.
  rewrite bool_decide_eq_true_2 in * by reflexivity. simpl in *.
  destruct (alertReceiveChannelTimerId p) as [t|] eqn:Et; simpl in *.
  - repeat split.
    + apply lookup_insert_eq.
    + intros k Hk. apply lookup_insert_ne. congruence.
    + exists t. split; [exact Et |]. apply Hrun. exact Et.
  - repeat split.
    + apply lookup_insert_eq.
    + intros k Hk. apply lookup_insert_ne. congruence.
    + exists (JS.next (timers p)). split; [reflexivity |]. apply Hrun. reflexivity.
Qed.

End Proofs.

(** *** The theorems at work on a sample page *)

Import Samples.

Lemma created_reachable : reachable (handle (CreateChannel "G") fresh_integrations).
Proof.
  exact (reachable_handle _ (CreateChannel "G")
           (reachable_initial (Some "A") [channel "A"; channel "B"])).
Qed.

Lemma single_timer_witness :
  size (JS.active (timers (handle (CreateChannel "G") fresh_integrations))) ≤ 1.
Proof.
  destruct (single_timer (handle (CreateChannel "G") fresh_integrations)
              created_reachable) as (Hsize & _).
  exact Hsize.
Defined.

Lemma polling_budget_witness :
  alertReceiveChanneltoPoll (ticks 3 (handle (CreateChannel "G") fresh_integrations)) !! "G"
  = Some 197%Z.
Proof.
  assert (Hentry : alertReceiveChanneltoPoll
                     (handle (CreateChannel "G") fresh_integrations)
                   !! JS.prop_key (selectedAlertReceiveChannel
                                     (handle (CreateChannel "G") fresh_integrations))
                   = Some 200%Z)
    by (vm_compute; reflexivity).
  destruct (polling_budget (handle (CreateChannel "G") fresh_integrations) 200%Z 3
              created_reachable Hentry) as (_ & Hspend & _).
  assert (Hle : 3 ≤ Z.to_nat 200) by (vm_compute; lia).
  destruct (Hspend Hle) as [Hcounter _].
  exact Hcounter.
Defined.


Lemma parseQueryParams_without_id_witness :
  selectedAlertReceiveChannel
    (outcome (parseQueryParams (MkQuery None None)
                (initial_page None [channel "A"; channel "B"])))
  = Some "A".
Proof.
  destruct (parseQueryParams_without_id (MkQuery None None)
              (initial_page None [channel "A"; channel "B"]) eq_refl)
    as (_ & Hfirst & _).
  assert (Hresult : getSearchResult
                      (alertReceiveChannelStore
                         (initial_page None [channel "A"; channel "B"]))
                    = Some [channel "A"; channel "B"])
    by (vm_compute; reflexivity).
  destruct (Hfirst eq_refl _ Hresult) as (p' & Hret & Hsel & _).
  rewrite Hret. exact Hsel.
Defined.

Lemma applyFilters_idempotent_witness :
  applyFilters (outcome (applyFilters stale_selection)) = applyFilters stale_selection.
Proof.
  assert (Hupdate : updateItems (Some (searchTerm (integrationsFilters
                                                      (state stale_selection))))
                      (alertReceiveChannelStore stale_selection)
                    = ([channel "A"; channel "B"], true))
    by (vm_compute; reflexivity).
  assert (Hresult : getSearchResult [channel "A"; channel "B"]
                    = Some [channel "A"; channel "B"])
    by (vm_compute; reflexivity).
  assert (Hstable : updateItems (Some (searchTerm (integrationsFilters
                                                      (state stale_selection))))
                      [channel "A"; channel "B"]
                    = ([channel "A"; channel "B"], true))
    by (vm_compute; reflexivity).
  destruct (applyFilters_idempotent stale_selection _ _ Hupdate Hresult Hstable)
    as (p1 & Hfirst & Hsecond & _).
  rewrite Hfirst. simpl. exact Hsecond.
Defined.

Lemma created_grafana_alerting_witness :
  alertReceiveChanneltoPoll
    (handleCreateNewAlertReceiveChannel "G" fresh_integrations) !! "G"
  = Some 200%Z.
Proof.
  assert (Hcreate : create "G" (alertReceiveChannelStore fresh_integrations)
                    = ([channel "A"; channel "B"; channel "G"], Some (channel "G")))
    by (vm_compute; reflexivity).
  assert (Hupdate : updateItems None [channel "A"; channel "B"; channel "G"]
                    = ([channel "A"; channel "B"; channel "G"], true))
    by (vm_compute; reflexivity).
  assert (Hname : display_name
                    <$> getIntegration (channel "G") [channel "A"; channel "B"; channel "G"]
                  = Some "Grafana Alerting")
    by (vm_compute; reflexivity).
  destruct (created_grafana_alerting fresh_integrations "G" _ _ (channel "G")
              (reachable_initial (Some "A") [channel "A"; channel "B"])
              Hcreate Hupdate Hname) as (_ & _ & _ & Hcounter & _).
  exact Hcounter.
Defined.

End IntegrationsExtras.
